(** * The canvas transformer of goblin-beat

    A shallow embedding of
    - [quartz/plugins/transformers/canvas.ts]: the validator
      ([parseCanvasData]), the serializer ([serializeCanvasData]) and the
      host adapter ([textTransform]);
    - [quartz/plugins/transformers/canvas-renderer.ts]: the static renderer;
    - [quartz/static/scripts/canvas-graph.inline.ts]: [getNodeAnchor].

    Conventions.
    - A JavaScript string is a Rocq [string] holding its UTF-8 encoding.
      Every character the program inspects, replaces or cuts off is ASCII,
      and concatenation and equality commute with the encoding.
    - A JavaScript number is a binary64 [float].
    - The value of a property that is absent ([undefined]) is [None].
    - The built-in functions of the runtime ([JSON.parse], [JSON.stringify],
      number-to-string conversion) are parameters of the program; module
      [ES] gives reference implementations after ECMA-262, used to run the
      program on concrete inputs. *)

From Stdlib Require Import ZArith String Ascii List Bool Lia Floats DecimalString.
From stdpp Require Import gmap strings list.
Import ListNotations.

Local Open Scope list_scope.

(** ** Strings *)

Module Str.

(** The double quote, a string between double quotes, the line feed. *)
Definition dq : string := String "034"%char EmptyString.
Definition quoted (s : string) : string := dq +:+ s +:+ dq.
Definition LF : string := String "010"%char EmptyString.

(** [s.startsWith(p)]. *)
Definition startsWith (s p : string) : bool := String.prefix p s.

(** [s.slice(0, -n)] for [n > 0]: [s] without its last [n] characters. *)
Definition slice_end (s : string) (n : nat) : string :=
  String.substring 0 (String.length s - n) s.

(** [s.endsWith(p)]. *)
Definition endsWith (s p : string) : bool :=
  (String.length p <=? String.length s)%nat &&
  String.eqb (String.substring (String.length s - String.length p)
                               (String.length p) s) p.

(** [s.replace(/c/g, rep)] for a one-character pattern. *)
Fixpoint replaceAll (c : ascii) (rep : string) (s : string) : string :=
  match s with
  | EmptyString => EmptyString
  | String a s' =>
      if Ascii.eqb a c then rep +:+ replaceAll c rep s'
      else String a (replaceAll c rep s')
  end.

(** [parts.join(sep)]. *)
Definition join (sep : string) (parts : list string) : string :=
  String.concat sep parts.

(** [`${i}`] for an array index [i]. *)
Definition of_index (i : nat) : string :=
  NilZero.string_of_uint (Nat.to_uint i).

(** [s.trim()]. The white space and line terminators of ECMA-262 are
    U+0009 to U+000D, U+0020, U+00A0, U+1680, U+2000 to U+200A, U+2028,
    U+2029, U+202F, U+205F, U+3000 and U+FEFF; [strip_space] takes one of
    them, in UTF-8, off the front. *)
Definition strip_space (s : string) : option string :=
  match s with
  | EmptyString => None
  | String c rest =>
      let c := nat_of_ascii c in
      if ((9 <=? c) && (c <=? 13) || (c =? 32))%nat then Some rest
      else
        match rest with
        | String c1 rest1 =>
            let c1 := nat_of_ascii c1 in
            if ((c =? 194) && (c1 =? 160))%nat then Some rest1
            else
              match rest1 with
              | String c2 rest2 =>
                  let c2 := nat_of_ascii c2 in
                  if ((c =? 225) && (c1 =? 154) && (c2 =? 128)
                      || (c =? 226) && (c1 =? 128)
                         && ((128 <=? c2) && (c2 <=? 138)
                             || (c2 =? 168) || (c2 =? 169) || (c2 =? 175))
                      || (c =? 226) && (c1 =? 129) && (c2 =? 159)
                      || (c =? 227) && (c1 =? 128) && (c2 =? 128)
                      || (c =? 239) && (c1 =? 187) && (c2 =? 191))%nat
                  then Some rest2 else None
              | EmptyString => None
              end
        | EmptyString => None
        end
  end.

Fixpoint trim_start (fuel : nat) (s : string) : string :=
  match fuel with
  | O => s
  | S fuel' =>
      match strip_space s with
      | Some rest => trim_start fuel' rest
      | None => s
      end
  end.

Definition trimStart (s : string) : string := trim_start (String.length s) s.

Fixpoint trimEnd (s : string) : string :=
  match s with
  | EmptyString => EmptyString
  | String c rest =>
      if String.eqb (trimStart s) EmptyString then EmptyString
      else String c (trimEnd rest)
  end.

Definition trim (s : string) : string := trimEnd (trimStart s).

(** [s] occurs in [t]. *)
Definition occurs_in (s t : string) : Prop :=
  exists pre post, t = pre +:+ s +:+ post.

(** [s.split(c)] for a one-character separator: never empty, one more
    piece than there are separators. *)
Fixpoint split (c : ascii) (s : string) : list string :=
  match s with
  | EmptyString => [EmptyString]
  | String a s' =>
      if Ascii.eqb a c then EmptyString :: split c s'
      else
        match split c s' with
        | piece :: pieces => String a piece :: pieces
        | [] => [String a EmptyString]
        end
  end.

(** [s.split(/\s+/)]: the pieces between the runs of white space, the
    white space being that of [trim]. [piece] is the piece being read. *)
Fixpoint split_spaces_from (fuel : nat) (piece s : string) : list string :=
  match fuel with
  | O => [piece]
  | S fuel' =>
      match s with
      | EmptyString => [piece]
      | String a s' =>
          match strip_space s with
          | Some rest =>
              piece :: split_spaces_from fuel' EmptyString
                         (trim_start (String.length rest) rest)
          | None =>
              split_spaces_from fuel' (piece +:+ String a EmptyString) s'
          end
      end
  end.

Definition split_spaces (s : string) : list string :=
  split_spaces_from (String.length s) EmptyString s.

(** How many times the character [c] is in [s]. *)
Fixpoint count (c : ascii) (s : string) : nat :=
  match s with
  | EmptyString => 0
  | String a s' => (if Ascii.eqb a c then 1 else 0) + count c s'
  end.

End Str.

(** ** JavaScript values as [JSON.parse] produces them *)

#[local] Unset Elimination Schemes.
Inductive json : Type :=
| JNull
| JBool (b : bool)
| JNum (n : float)
| JStr (s : string)
| JArr (items : list json)
| JObj (props : list (string * json)).
#[local] Set Elimination Schemes.

(** Own properties of an object, by name; a later binding of a name is
    never consulted, and [JSON.parse] produces none. *)
Fixpoint assoc (k : string) (props : list (string * json)) : option json :=
  match props with
  | [] => None
  | (k', v) :: rest => if String.eqb k k' then Some v else assoc k rest
  end.

(** [v[k]] for the property names this program reads (none of them is
    defined on [Object.prototype] or [Array.prototype]). *)
Definition prop (v : json) (k : string) : option json :=
  match v with
  | JObj props => assoc k props
  | _ => None
  end.

(** [typeof v]. *)
Definition typeof (v : option json) : string :=
  match v with
  | None => "undefined"
  | Some JNull => "object"
  | Some (JBool _) => "boolean"
  | Some (JNum _) => "number"
  | Some (JStr _) => "string"
  | Some (JArr _) => "object"
  | Some (JObj _) => "object"
  end.

(** [Array.isArray(v)]. *)
Definition isArray (v : option json) : bool :=
  match v with
  | Some (JArr _) => true
  | _ => false
  end.

(** The unchecked casts [v as string], [v as number], [v as unknown[]]:
    the identity on a value of that type, which every use has tested
    for. *)
Definition as_string (v : option json) : string :=
  match v with Some (JStr s) => s | _ => EmptyString end.
Definition as_number (v : option json) : float :=
  match v with Some (JNum n) => n | _ => nan end.
Definition as_array (v : option json) : list json :=
  match v with Some (JArr items) => items | _ => [] end.

(** ** The data model (canvas.ts, lines 76-122) *)

Record CanvasNode : Type := mkNode {
  node_id : string;
  node_type : string;
  node_x : float;
  node_y : float;
  node_width : float;
  node_height : float;
  node_text : option string;
  node_file : option string;
  node_url : option string;
  node_label : option string;
  node_color : option string
}.

Record CanvasEdge : Type := mkEdge {
  edge_id : string;
  edge_fromNode : string;
  edge_toNode : string;
  edge_fromSide : option string;
  edge_toSide : option string;
  edge_label : option string;
  edge_color : option string
}.

Record CanvasData : Type := mkData {
  nodes : list CanvasNode;
  edges : list CanvasEdge
}.

Record CanvasParseWarning : Type := mkWarning { message : string }.

(** [CanvasParseResult]: the success variant carries the document and the
    warnings, the error variant the message alone. *)
Inductive CanvasParseResult : Type :=
| ParseSuccess (data : CanvasData) (warnings : list CanvasParseWarning)
| ParseError (error : string).

(** ** The validator (canvas.ts, lines 126-297) *)

Definition VALID_NODE_TYPES : gset string :=
  list_to_set ["text"; "file"; "link"; "group"].
Definition VALID_SIDES : gset string :=
  list_to_set ["top"; "right"; "bottom"; "left"].

Definition isRecord (value : json) : bool :=
  String.eqb (typeof (Some value)) "object"
  && negb (match value with JNull => true | _ => false end)
  && negb (isArray (Some value)).

(** An optional string field: copied when present and a string. *)
Definition optional_string (v : option json) : option string :=
  if String.eqb (typeof v) "string" then Some (as_string v) else None.

(** The loops over [requiredStrings] and [requiredNumbers]: the first
    field whose value has not the type asked for. *)
Definition first_not_typed (ty : string) (raw : json) (fields : list string)
  : option string :=
  List.find (fun field => negb (String.eqb (typeof (prop raw field)) ty)) fields.

Definition validateNode (raw : json) (index : nat) : string + CanvasNode :=
  if negb (isRecord raw) then
    inl ("Node at index " +:+ Str.of_index index +:+ " is not an object")
  else
    match first_not_typed "string" raw ["id"; "type"] with
    | Some field =>
        inl ("Node at index " +:+ Str.of_index index +:+
             " is missing required string field " +:+ Str.quoted field)
    | None =>
    match first_not_typed "number" raw ["x"; "y"; "width"; "height"] with
    | Some field =>
        inl ("Node at index " +:+ Str.of_index index +:+
             " is missing required number field " +:+ Str.quoted field)
    | None =>
        let typeValue := as_string (prop raw "type") in
        if negb (bool_decide (typeValue ∈ VALID_NODE_TYPES)) then
          inl ("Node at index " +:+ Str.of_index index +:+
               " has invalid type " +:+ Str.quoted typeValue +:+
               ". Must be one of: text, file, link, group")
        else
          inr {| node_id := as_string (prop raw "id");
                 node_type := typeValue;
                 node_x := as_number (prop raw "x");
                 node_y := as_number (prop raw "y");
                 node_width := as_number (prop raw "width");
                 node_height := as_number (prop raw "height");
                 node_text := optional_string (prop raw "text");
                 node_file := optional_string (prop raw "file");
                 node_url := optional_string (prop raw "url");
                 node_label := optional_string (prop raw "label");
                 node_color := optional_string (prop raw "color") |}
    end
    end.

(** A side hint: kept when present, a string and one of [VALID_SIDES];
    dropped without an error otherwise. *)
Definition optional_side (v : option json) : option string :=
  match v with
  | None => None
  | Some _ =>
      if String.eqb (typeof v) "string"
         && bool_decide (as_string v ∈ VALID_SIDES)
      then Some (as_string v) else None
  end.

Definition validateEdge (raw : json) (index : nat) : string + CanvasEdge :=
  if negb (isRecord raw) then
    inl ("Edge at index " +:+ Str.of_index index +:+ " is not an object")
  else
    match first_not_typed "string" raw ["id"; "fromNode"; "toNode"] with
    | Some field =>
        inl ("Edge at index " +:+ Str.of_index index +:+
             " is missing required string field " +:+ Str.quoted field)
    | None =>
        inr {| edge_id := as_string (prop raw "id");
               edge_fromNode := as_string (prop raw "fromNode");
               edge_toNode := as_string (prop raw "toNode");
               edge_fromSide := optional_side (prop raw "fromSide");
               edge_toSide := optional_side (prop raw "toSide");
               edge_label := optional_string (prop raw "label");
               edge_color := optional_string (prop raw "color") |}
    end.

(** The two warnings of the reference check. *)
Definition fromNode_warning (edge : CanvasEdge) : CanvasParseWarning :=
  {| message := "Edge " +:+ Str.quoted (edge_id edge) +:+
                " references non-existent fromNode " +:+
                Str.quoted (edge_fromNode edge) +:+ " — skipped" |}.
Definition toNode_warning (edge : CanvasEdge) : CanvasParseWarning :=
  {| message := "Edge " +:+ Str.quoted (edge_id edge) +:+
                " references non-existent toNode " +:+
                Str.quoted (edge_toNode edge) +:+ " — skipped" |}.

(** Step 3, the loop over [parsed["nodes"]]: [rest] is what is left of the
    array from index [i] on, [acc] the nodes pushed so far. The test
    [if (result.error)] is a test for the error variant: [validateNode]
    and [validateEdge] have no empty message. *)
Fixpoint validate_nodes (rest : list json) (i : nat) (acc : list CanvasNode)
  : string + list CanvasNode :=
  match rest with
  | [] => inr acc
  | raw :: rest' =>
      match validateNode raw i with
      | inl error => inl error
      | inr node => validate_nodes rest' (S i) (acc ++ [node])
      end
  end.

(** Step 5, the loop over [parsed["edges"]], with the edges and the
    warnings pushed so far. *)
Fixpoint validate_edges (nodeIds : gset string) (rest : list json) (i : nat)
    (acc : list CanvasEdge) (warnings : list CanvasParseWarning)
  : string + (list CanvasEdge * list CanvasParseWarning) :=
  match rest with
  | [] => inr (acc, warnings)
  | raw :: rest' =>
      match validateEdge raw i with
      | inl error => inl error
      | inr edge =>
          if negb (bool_decide (edge_fromNode edge ∈ nodeIds)) then
            validate_edges nodeIds rest' (S i) acc
                           (warnings ++ [fromNode_warning edge])
          else if negb (bool_decide (edge_toNode edge ∈ nodeIds)) then
            validate_edges nodeIds rest' (S i) acc
                           (warnings ++ [toNode_warning edge])
          else
            validate_edges nodeIds rest' (S i) (acc ++ [edge]) warnings
      end
  end.

(** Steps 2 to 5 of [parseCanvasData], on the parsed value. *)
Definition validate_canvas (parsed : json) : CanvasParseResult :=
  if negb (isRecord parsed) then
    ParseError "Invalid canvas schema: expected an object with nodes and edges"
  else if negb (isArray (prop parsed "nodes")) then
    ParseError ("Invalid canvas schema: " +:+ Str.quoted "nodes" +:+
                " must be an array")
  else if negb (isArray (prop parsed "edges")) then
    ParseError ("Invalid canvas schema: " +:+ Str.quoted "edges" +:+
                " must be an array")
  else
    match validate_nodes (as_array (prop parsed "nodes")) 0 [] with
    | inl error => ParseError error
    | inr ns =>
        let nodeIds : gset string := list_to_set (map node_id ns) in
        match validate_edges nodeIds (as_array (prop parsed "edges")) 0 [] [] with
        | inl error => ParseError error
        | inr (es, warnings) =>
            ParseSuccess {| nodes := ns; edges := es |} warnings
        end
    end.

(** ** The object of a validated document

    What [JSON.stringify] is given: the properties of each object in the
    order in which [validateNode], [validateEdge] and [parseCanvasData]
    create them; an optional field that was not set is not there. *)

Definition optional_prop (k : string) (v : option string)
  : list (string * json) :=
  match v with
  | Some s => [(k, JStr s)]
  | None => []
  end.

Definition json_of_node (node : CanvasNode) : json :=
  JObj ([("id", JStr (node_id node));
         ("type", JStr (node_type node));
         ("x", JNum (node_x node));
         ("y", JNum (node_y node));
         ("width", JNum (node_width node));
         ("height", JNum (node_height node))]
        ++ optional_prop "text" (node_text node)
        ++ optional_prop "file" (node_file node)
        ++ optional_prop "url" (node_url node)
        ++ optional_prop "label" (node_label node)
        ++ optional_prop "color" (node_color node)).

Definition json_of_edge (edge : CanvasEdge) : json :=
  JObj ([("id", JStr (edge_id edge));
         ("fromNode", JStr (edge_fromNode edge));
         ("toNode", JStr (edge_toNode edge))]
        ++ optional_prop "fromSide" (edge_fromSide edge)
        ++ optional_prop "toSide" (edge_toSide edge)
        ++ optional_prop "label" (edge_label edge)
        ++ optional_prop "color" (edge_color edge)).

Definition json_of_data (data : CanvasData) : json :=
  JObj [("nodes", JArr (map json_of_node (nodes data)));
        ("edges", JArr (map json_of_edge (edges data)))].

(** ** Helpers of the static renderer (canvas-renderer.ts, lines 9-23) *)

Definition escapeHtml (str : string) : string :=
  Str.replaceAll "'"%char "&#039;"
    (Str.replaceAll "034"%char "&quot;"
      (Str.replaceAll ">"%char "&gt;"
        (Str.replaceAll "<"%char "&lt;"
          (Str.replaceAll "&"%char "&amp;" str)))).

Definition resolveFileUrl (baseUrl filePath : string) : string :=
  let normalized :=
    if Str.endsWith baseUrl "/" then Str.slice_end baseUrl 1 else baseUrl in
  let stripped :=
    if Str.endsWith filePath ".md" then Str.slice_end filePath 3 else filePath in
  normalized +:+ "/" +:+ stripped.

(** [v ? escapeHtml(v) : ""]: the empty string is falsy as well. *)
Definition escaped_or_empty (v : option string) : string :=
  match v with
  | None => ""
  | Some s => if String.eqb s "" then "" else escapeHtml s
  end.

(** [v ?? ""]. *)
Definition or_empty (v : option string) : string :=
  match v with
  | None => ""
  | Some s => s
  end.

(** [renderCanvasError] (canvas-renderer.ts, lines 104-110). *)
Definition renderCanvasError (message : string) : string :=
  "<div class=" +:+ Str.quoted "canvas-error" +:+ ">" +:+
  "<p class=" +:+ Str.quoted "canvas-error-message" +:+ ">" +:+
  escapeHtml message +:+ "</p>" +:+
  "</div>".

(** The argument of [renderCanvasToHtml] as the function meets it at run
    time, where its declared type is not checked: [None] for a value that
    is falsy, and in an object [None] for a [nodes] or [edges] that is not
    an array. *)
Record CanvasDataArg : Type := mkArg {
  arg_nodes : option (list CanvasNode);
  arg_edges : option (list CanvasEdge)
}.

Definition arg_of_data (data : CanvasData) : option CanvasDataArg :=
  Some {| arg_nodes := Some (nodes data); arg_edges := Some (edges data) |}.

(** ** The program over the built-in functions of the runtime *)

Section Runtime.

(** [JSON.parse]: [None] when it throws. *)
Variable JSON_parse : string -> option json.
(** [JSON.stringify] on a value without [undefined], functions or
    [toJSON]. *)
Variable JSON_stringify : json -> string.
(** [`${n}`] for a number [n]. *)
Variable Number_toString : float -> string.

(** *** canvas.ts *)

Definition parseCanvasData (raw : string) : CanvasParseResult :=
  match JSON_parse raw with
  | None => ParseError "Malformed JSON: unable to parse canvas file"
  | Some parsed => validate_canvas parsed
  end.


(** *** canvas-renderer.ts *)

(** The opening tag that the four node renderers share but for the
    class. *)
Definition node_open (class : string) (node : CanvasNode) : string :=
  "<div class=" +:+ Str.quoted ("canvas-node canvas-node-" +:+ class) +:+
  " data-node-id=" +:+ Str.quoted (escapeHtml (node_id node)) +:+ " " +:+
  "style=" +:+ Str.quoted (
    "position:absolute;left:" +:+ Number_toString (node_x node) +:+
    "px;top:" +:+ Number_toString (node_y node) +:+
    "px;width:" +:+ Number_toString (node_width node) +:+
    "px;height:" +:+ Number_toString (node_height node) +:+ "px;") +:+ ">".

Definition renderTextNode (node : CanvasNode) : string :=
  let content := escaped_or_empty (node_text node) in
  node_open "text" node +:+
  "<div class=" +:+ Str.quoted "canvas-node-content" +:+ ">" +:+
  content +:+ "</div>" +:+
  "</div>".

Definition renderFileNode (node : CanvasNode) (baseUrl : string) : string :=
  let filePath := or_empty (node_file node) in
  let href := resolveFileUrl baseUrl filePath in
  let label := escapeHtml filePath in
  node_open "file" node +:+
  "<a href=" +:+ Str.quoted (escapeHtml href) +:+ ">" +:+ label +:+ "</a>" +:+
  "</div>".

Definition renderGroupNode (node : CanvasNode) : string :=
  let label := escaped_or_empty (node_label node) in
  node_open "group" node +:+
  "<div class=" +:+ Str.quoted "canvas-group-label" +:+ ">" +:+
  label +:+ "</div>" +:+
  "<div class=" +:+ Str.quoted "canvas-group-container" +:+ "></div>" +:+
  "</div>".

Definition renderLinkNode (node : CanvasNode) : string :=
  let url := or_empty (node_url node) in
  let displayUrl := escapeHtml url in
  node_open "link" node +:+
  "<a href=" +:+ Str.quoted (escapeHtml url) +:+ ">" +:+
  displayUrl +:+ "</a>" +:+
  "</div>".

Definition renderNode (node : CanvasNode) (baseUrl : string) : string :=
  if String.eqb (node_type node) "text" then renderTextNode node
  else if String.eqb (node_type node) "file" then renderFileNode node baseUrl
  else if String.eqb (node_type node) "group" then renderGroupNode node
  else if String.eqb (node_type node) "link" then renderLinkNode node
  else renderTextNode node.

Definition renderEdge (edge : CanvasEdge) : string :=
  let labelAttr :=
    match edge_label edge with
    | None => ""
    | Some l =>
        if String.eqb l "" then ""
        else " data-edge-label=" +:+ Str.quoted (escapeHtml l)
    end in
  "<line class=" +:+ Str.quoted "canvas-edge" +:+ " " +:+
  "data-edge-id=" +:+ Str.quoted (escapeHtml (edge_id edge)) +:+ " " +:+
  "data-from-node=" +:+ Str.quoted (escapeHtml (edge_fromNode edge)) +:+ " " +:+
  "data-to-node=" +:+ Str.quoted (escapeHtml (edge_toNode edge)) +:+
  labelAttr +:+ " />".

(** The value [JSON.stringify(data)] prints for an argument that passed
    the guard and has no property but [nodes] and [edges]. *)
Definition json_of_arg (ns : list CanvasNode) (es : list CanvasEdge) : json :=
  json_of_data {| nodes := ns; edges := es |}.

(** The markup of the fragment, before the embedded payload. *)
Definition canvas_markup (ns : list CanvasNode) (es : list CanvasEdge)
    (baseUrl : string) : string :=
  let nodesHtml := Str.join Str.LF (map (fun node => renderNode node baseUrl) ns) in
  let edgesHtml := Str.join Str.LF (map (fun edge => renderEdge edge) es) in
  let svgSection :=
    if (0 <? length es)%nat
    then "<svg class=" +:+ Str.quoted "canvas-edges" +:+ ">" +:+ Str.LF +:+
         edgesHtml +:+ Str.LF +:+ "</svg>"
    else "<svg class=" +:+ Str.quoted "canvas-edges" +:+ "></svg>" in
  "<div id=" +:+ Str.quoted "canvas-graph" +:+
  " class=" +:+ Str.quoted "canvas-container" +:+ ">" +:+ Str.LF +:+
  "<div class=" +:+ Str.quoted "canvas-nodes" +:+ ">" +:+ Str.LF +:+
  nodesHtml +:+ Str.LF +:+ "</div>" +:+ Str.LF +:+
  svgSection +:+ Str.LF +:+
  "</div>" +:+ Str.LF.

Definition renderCanvasToHtml (data : option CanvasDataArg)
    (baseUrl : string) : string :=
  match data with
  | Some {| arg_nodes := Some ns; arg_edges := Some es |} =>
      let jsonBlob := JSON_stringify (json_of_arg ns es) in
      canvas_markup ns es baseUrl +:+
      "<script type=" +:+ Str.quoted "application/json" +:+
      " id=" +:+ Str.quoted "canvas-data" +:+ ">" +:+ jsonBlob +:+ "</script>"
  | _ =>
      renderCanvasError
        "This canvas file could not be rendered. The data is malformed."
  end.

(** *** The transformer plugin (canvas.ts, lines 14-69) *)

(** [cfg_baseUrl] is [_ctx.cfg.configuration.baseUrl]. *)
Definition textTransform (cfg_baseUrl : option string) (src : string)
  : string :=
  let trimmed := Str.trim src in
  if negb (Str.startsWith trimmed "{") then src
  else
    match JSON_parse trimmed with
    | None => src
    | Some raw =>
        if negb (String.eqb (typeof (Some raw)) "object")
           || (match raw with JNull => true | _ => false end)
           || negb (isArray (prop raw "nodes"))
           || negb (isArray (prop raw "edges"))
        then src
        else
          match parseCanvasData trimmed with
          | ParseError error => renderCanvasError error
          | ParseSuccess data _ =>
              let baseUrl := or_empty cfg_baseUrl in
              renderCanvasToHtml (arg_of_data data) baseUrl
          end
    end.

End Runtime.

(** ** The interactive renderer: anchors (canvas-graph.inline.ts, lines 62-81) *)

Record Point : Type := mkPoint { point_x : float; point_y : float }.

(** [side] is the hint as the function meets it at run time: absent, or a
    string that need not be one of the four sides. *)
Definition getNodeAnchor (node : CanvasNode) (side : option string) : Point :=
  let cx := (node_x node + node_width node / 2)%float in
  let cy := (node_y node + node_height node / 2)%float in
  match side with
  | None => {| point_x := cx; point_y := cy |}
  | Some s =>
      if String.eqb s "top" then
        {| point_x := cx; point_y := node_y node |}
      else if String.eqb s "bottom" then
        {| point_x := cx; point_y := (node_y node + node_height node)%float |}
      else if String.eqb s "left" then
        {| point_x := node_x node; point_y := cy |}
      else if String.eqb s "right" then
        {| point_x := (node_x node + node_width node)%float; point_y := cy |}
      else
        {| point_x := cx; point_y := cy |}
  end.

(** ** The interactive renderer: labels, arrowheads, wrapped text, the
    node map (canvas-graph.inline.ts, lines 84-438) *)

(** [getNodeLabel] (lines 320-335). [v || ""] is [or_empty v]: the empty
    string is the one falsy string. [pop()] of the pieces, which are never
    none, is their last; when it is empty the whole path is the label. *)
Definition getNodeLabel (node : CanvasNode) : string :=
  if String.eqb (node_type node) "text" then or_empty (node_text node)
  else if String.eqb (node_type node) "file" then
    match node_file node with
    | None => ""
    | Some file =>
        if String.eqb file "" then ""
        else
          let without_md :=
            if Str.endsWith file ".md" then Str.slice_end file 3 else file in
          let popped := List.last (Str.split "/" without_md) "" in
          if String.eqb popped "" then file else popped
    end
  else if String.eqb (node_type node) "link" then or_empty (node_url node)
  else if String.eqb (node_type node) "group" then or_empty (node_label node)
  else "".


(** The lookup map of the nodes (lines 93-96): [Map.set] for each node in
    turn. *)
Definition nodeMap (ns : list CanvasNode) : gmap string CanvasNode :=
  foldl (fun m node => <[node_id node := node]> m) ∅ ns.

(** The two ends of the line of an edge (lines 188-194), [None] when the
    loop goes on to the next edge because an end is not in the map. *)
Definition edge_line (m : gmap string CanvasNode) (edge : CanvasEdge)
  : option (Point * Point) :=
  match m !! edge_fromNode edge, m !! edge_toNode edge with
  | Some fromNode, Some toNode =>
      Some (getNodeAnchor fromNode (edge_fromSide edge),
            getNodeAnchor toNode (edge_toSide edge))
  | _, _ => None
  end.

(** The lines of [wrapText] (lines 381-406): [done] are the lines of the
    tspans that are finished, [line] the words of the current one, whose
    text is always [line.join(" ")]. [measure] is the computed text
    length of a tspan with a given text: [tspan.node()] is the element
    that was just appended, so it is there, and its length depends on
    nothing else that changes during the loop. *)
Fixpoint wrap_words (measure : string -> float) (maxWidth : float)
    (words : list string) (done : list (list string)) (line : list string)
  : list (list string) :=
  match words with
  | [] => done ++ [line]
  | word :: rest =>
      let pushed := line ++ [word] in
      if PrimFloat.ltb maxWidth (measure (Str.join " " pushed))
         && (1 <? length pushed)%nat
      then wrap_words measure maxWidth rest (done ++ [line]) [word]
      else wrap_words measure maxWidth rest done pushed
  end.

(** A tspan of the text element: its [dy] and its text. *)
Record Tspan : Type := mkTspan { tspan_dy : string; tspan_text : string }.

(** A counter after [n] increments. *)
Definition counted (n : nat) : float :=
  Nat.iter n (fun x => (x + 1)%float) 0%float.

Section Interactive.

Variable Number_toString : float -> string.

(** [arrowheadPoints] (lines 345-372). *)
Definition arrowheadPoints (from to : Point) (size : float) : string :=
  let dx := (point_x to - point_x from)%float in
  let dy := (point_y to - point_y from)%float in
  let len := PrimFloat.sqrt (dx * dx + dy * dy)%float in
  if PrimFloat.eqb len 0 then ""
  else
    let ux := (dx / len)%float in
    let uy := (dy / len)%float in
    let px := (- uy)%float in
    let py := ux in
    let tipX := point_x to in
    let tipY := point_y to in
    let baseX1 := (point_x to - ux * size + px * (size / 2))%float in
    let baseY1 := (point_y to - uy * size + py * (size / 2))%float in
    let baseX2 := (point_x to - ux * size - px * (size / 2))%float in
    let baseY2 := (point_y to - uy * size - py * (size / 2))%float in
    Number_toString tipX +:+ "," +:+ Number_toString tipY +:+ " " +:+
    Number_toString baseX1 +:+ "," +:+ Number_toString baseY1 +:+ " " +:+
    Number_toString baseX2 +:+ "," +:+ Number_toString baseY2.

(** [wrapText] (lines 375-411): the tspans it leaves in the text element.
    The first has the offset that centres the block, each other a line
    height of 1.2em. *)
Definition wrapText (measure : string -> float) (text : string)
    (maxWidth : float) : list Tspan :=
  let words := Str.split_spaces text in
  match words with
  | [] => []
  | _ :: _ =>
      let lines := wrap_words measure maxWidth words [] [] in
      let lineNumber := counted (length lines - 1) in
      let lineHeight := 0x1.3333333333333p+0%float in
      let totalLines := (lineNumber + 1)%float in
      let offset := (- ((totalLines - 1) * lineHeight) / 2)%float in
      match lines with
      | [] => []
      | first :: others =>
          mkTspan (Number_toString offset +:+ "em") (Str.join " " first)
          :: map (fun line =>
                    mkTspan (Number_toString lineHeight +:+ "em")
                            (Str.join " " line)) others
      end
  end.

End Interactive.

(** ** Reference implementations of the built-in functions

    After ECMA-262: [Number::toString] (6.1.6.1.20), [JSON.stringify] with
    its [QuoteJSONString] (25.5.2) and [JSON.parse] (25.5.1), on strings in
    UTF-8. A code unit escaped as [\uXXXX] is decoded to UTF-8, a
    surrogate pair of two escapes to its code point; a surrogate on its
    own takes the three bytes of the same scheme, and [quote] prints it
    back as an escape. *)

Module ES.

Local Open Scope Z_scope.

Definition digits (n : Z) : string :=
  NilZero.string_of_uint (N.to_uint (Z.to_N n)).

Fixpoint zeros (n : nat) : string :=
  match n with
  | O => EmptyString
  | S n' => String "0" (zeros n')
  end.

(** *** Numbers *)

(** The binary64 value nearest to [m * 10^e], ties to even, for
    [0 <= m]. Beyond the two cut-offs the result is an infinity or a
    zero whatever the digits are. *)
Definition decimal_to_float (neg : bool) (m e : Z) : float :=
  if m =? 0 then (if neg then neg_zero else zero)
  else if 400 <? e then (if neg then neg_infinity else infinity)
  else if Z.log2 m + 1 + 3 * e <? -1080 then (if neg then neg_zero else zero)
  else if 0 <=? e then
    SF2Prim (binary_normalize prec emax
               (if neg then - (m * 10 ^ e) else m * 10 ^ e) 0 neg)
  else
    SF2Prim (SFdiv prec emax (S754_finite neg (Z.to_pos m) 0)
                             (S754_finite false (Z.to_pos (10 ^ (- e))) 0)).

(** [num / den < 10^n]. *)
Definition below_pow10 (num den n : Z) : bool :=
  if 0 <=? n then num <? den * 10 ^ n else num * 10 ^ (- n) <? den.

Fixpoint first_pow10_above (fuel : nat) (num den n : Z) : Z :=
  match fuel with
  | O => n
  | S fuel' =>
      if below_pow10 num den n then n
      else first_pow10_above fuel' num den (n + 1)
  end.

(** The [n] with [10^(n-1) <= num / den < 10^n]. *)
Definition magnitude (num den : Z) : Z :=
  let l := Z.log2 num - Z.log2 den in
  first_pow10_above 8 num den (l * 30103 / 100000 - 2).

(** For [x = num / den] and a number [k] of digits, the pair [(n, s)]
    with [10^(k-1) <= s < 10^k] nearest to [x] among those for which
    [s * 10^(n-k)] reads back as [x]. *)
Definition shortest_with (x : float) (num den n k : Z) : option (Z * Z) :=
  let '(snum, sden) :=
    if 0 <=? k - n then (num * 10 ^ (k - n), den)
    else (num, den * 10 ^ (n - k)) in
  let lo := snum / sden in
  let r := snum mod sden in
  let reads_back (n' s' : Z) :=
    PrimFloat.Leibniz.eqb (decimal_to_float false s' (n' - k)) x in
  let lo_ok := reads_back n lo in
  let '(hn, hs) :=
    if lo + 1 =? 10 ^ k then (n + 1, 10 ^ (k - 1)) else (n, lo + 1) in
  let hi_ok := reads_back hn hs in
  match lo_ok, hi_ok with
  | true, false => Some (n, lo)
  | false, true => Some (hn, hs)
  | false, false => None
  | true, true =>
      if 2 * r <? sden then Some (n, lo)
      else if sden <? 2 * r then Some (hn, hs)
      else if Z.even lo then Some (n, lo) else Some (hn, hs)
  end.

Fixpoint shortest (fuel : nat) (x : float) (num den n k : Z)
  : Z * Z * Z :=
  match fuel with
  | O => (n, k, 0)
  | S fuel' =>
      match shortest_with x num den n k with
      | Some (n', s) => (n', k, s)
      | None => shortest fuel' x num den n (k + 1)
      end
  end.

(** [Number::toString(x)] in radix 10. *)
Definition Number_toString (x : float) : string :=
  match Prim2SF x with
  | S754_nan => "NaN"
  | S754_zero _ => "0"
  | S754_infinity neg => if neg then "-Infinity" else "Infinity"
  | S754_finite neg m e =>
      let '(num, den) :=
        if 0 <=? e then (Zpos m * 2 ^ e, 1) else (Zpos m, 2 ^ (- e)) in
      let '(n, k, s) :=
        shortest 17 (PrimFloat.abs x) num den (magnitude num den) 1 in
      let ds := digits s in
      let body :=
        if (k <=? n) && (n <=? 21) then ds +:+ zeros (Z.to_nat (n - k))
        else if (0 <? n) && (n <=? 21) then
          String.substring 0 (Z.to_nat n) ds +:+ "." +:+
          String.substring (Z.to_nat n) (Z.to_nat (k - n)) ds
        else if (-6 <? n) && (n <=? 0) then
          "0." +:+ zeros (Z.to_nat (- n)) +:+ ds
        else
          let exponent :=
            (if 0 <=? n - 1 then "+" else "-") +:+ digits (Z.abs (n - 1)) in
          if k =? 1 then ds +:+ "e" +:+ exponent
          else String.substring 0 1 ds +:+ "." +:+
               String.substring 1 (Z.to_nat (k - 1)) ds +:+ "e" +:+ exponent
      in
      if neg then "-" +:+ body else body
  end.


(** *** [JSON.stringify] *)

Definition hex_digit (n : N) : ascii :=
  ascii_of_N (if (n <? 10)%N then 48 + n else 87 + n).

(** [\uXXXX] for a code unit, in lower case. *)
Definition unicode_escape (cu : N) : string :=
  "\u" +:+
  String (hex_digit (cu / 4096)) (String (hex_digit (cu / 256 mod 16))
    (String (hex_digit (cu / 16 mod 16)) (String (hex_digit (cu mod 16))
      EmptyString))).

Fixpoint quote_chars (s : string) : string :=
  match s with
  | EmptyString => EmptyString
  | String c rest =>
      let n := N_of_ascii c in
      let surrogate :=
        match rest with
        | String c1 (String c2 rest2) =>
            let n1 := N_of_ascii c1 in
            let n2 := N_of_ascii c2 in
            if ((n =? 237) && (160 <=? n1) && (n1 <=? 191)
                && (128 <=? n2) && (n2 <=? 191))%N
            then Some (unicode_escape
                         (53248 + (n1 mod 64) * 64 + n2 mod 64)%N
                       +:+ quote_chars rest2)
            else None
        | _ => None
        end in
      match surrogate with
      | Some quoted => quoted
      | None =>
          (if (n =? 34)%N then "\" +:+ Str.dq
           else if (n =? 92)%N then "\\"
           else if (n =? 8)%N then "\b"
           else if (n =? 12)%N then "\f"
           else if (n =? 10)%N then "\n"
           else if (n =? 13)%N then "\r"
           else if (n =? 9)%N then "\t"
           else if (n <? 32)%N then unicode_escape n
           else String c EmptyString) +:+ quote_chars rest
      end
  end.

(** [QuoteJSONString]. *)
Definition quote (s : string) : string := Str.quoted (quote_chars s).

Definition is_finite (x : float) : bool :=
  negb (PrimFloat.is_nan x) && negb (PrimFloat.is_infinity x).

(** [JSON.stringify(v)] without indentation; the properties of an object
    in the order of the list, which is the order of the runtime for
    names that are not array indices. *)
Fixpoint JSON_stringify (v : json) : string :=
  match v with
  | JNull => "null"
  | JBool b => if b then "true" else "false"
  | JNum x => if is_finite x then Number_toString x else "null"
  | JStr s => quote s
  | JArr items => "[" +:+ Str.join "," (map JSON_stringify items) +:+ "]"
  | JObj props =>
      "{" +:+
      Str.join "," (map (fun kv => quote (fst kv) +:+ ":" +:+
                                   JSON_stringify (snd kv)) props)
      +:+ "}"
  end.

(** *** [JSON.parse] *)

(** JSON white space: tab, line feed, carriage return, space. *)
Fixpoint skip_ws (s : string) : string :=
  match s with
  | EmptyString => EmptyString
  | String c rest =>
      let n := N_of_ascii c in
      if ((n =? 9) || (n =? 10) || (n =? 13) || (n =? 32))%N
      then skip_ws rest else s
  end.

Definition digit_value (c : ascii) : option Z :=
  let n := Z.of_N (N_of_ascii c) in
  if (48 <=? n) && (n <=? 57) then Some (n - 48) else None.

Definition hex_value (c : ascii) : option N :=
  let n := N_of_ascii c in
  if ((48 <=? n) && (n <=? 57))%N then Some (n - 48)%N
  else if ((97 <=? n) && (n <=? 102))%N then Some (n - 87)%N
  else if ((65 <=? n) && (n <=? 70))%N then Some (n - 55)%N
  else None.

Definition hex4 (a b c d : ascii) : option N :=
  match hex_value a, hex_value b, hex_value c, hex_value d with
  | Some a, Some b, Some c, Some d =>
      Some (a * 4096 + b * 256 + c * 16 + d)%N
  | _, _, _, _ => None
  end.

(** UTF-8 of a code point (of a surrogate too, in three bytes). *)
Definition utf8 (cp : N) : string :=
  let byte (n : N) := ascii_of_N n in
  (if cp <? 128 then String (byte cp) EmptyString
   else if cp <? 2048 then
     String (byte (192 + cp / 64)) (String (byte (128 + cp mod 64))
       EmptyString)
   else if cp <? 65536 then
     String (byte (224 + cp / 4096))
       (String (byte (128 + cp / 64 mod 64))
         (String (byte (128 + cp mod 64)) EmptyString))
   else
     String (byte (240 + cp / 262144))
       (String (byte (128 + cp / 4096 mod 64))
         (String (byte (128 + cp / 64 mod 64))
           (String (byte (128 + cp mod 64)) EmptyString))))%N.

(** The digits at the front of [s]: the number they form after [acc],
    how many they are, and what follows. *)
Fixpoint take_digits (s : string) (acc count : Z) : Z * Z * string :=
  match s with
  | EmptyString => (acc, count, s)
  | String c rest =>
      match digit_value c with
      | Some d => take_digits rest (10 * acc + d) (count + 1)
      | None => (acc, count, s)
      end
  end.

(** A JSON number at the front of [s]: an optional minus; a zero, or a
    digit from 1 to 9 and any digits; optionally a point and digits;
    optionally [e] or [E], a sign and digits. *)
Definition parse_number (s : string) : option (float * string) :=
  let '(neg, s) :=
    match s with
    | String "-" rest => (true, rest)
    | _ => (false, s)
    end in
  let int_part :=
    match s with
    | String "0" rest => Some (0, rest)
    | _ =>
        let '(m, count, rest) := take_digits s 0 0 in
        if count =? 0 then None else Some (m, rest)
    end in
  match int_part with
  | None => None
  | Some (m, s) =>
      let fraction :=
        match s with
        | String "." rest =>
            let '(m', count, rest') := take_digits rest m 0 in
            if count =? 0 then None else Some (m', count, rest')
        | _ => Some (m, 0, s)
        end in
      match fraction with
      | None => None
      | Some (m, scale, s) =>
          let exponent :=
            match s with
            | String c rest =>
                if Ascii.eqb c "e" || Ascii.eqb c "E" then
                  let '(eneg, rest) :=
                    match rest with
                    | String "-" rest' => (true, rest')
                    | String "+" rest' => (false, rest')
                    | _ => (false, rest)
                    end in
                  let '(e, count, rest') := take_digits rest 0 0 in
                  if count =? 0 then None
                  else Some (if eneg then - e else e, rest')
                else Some (0, s)
            | EmptyString => Some (0, s)
            end in
          match exponent with
          | None => None
          | Some (e, s) => Some (decimal_to_float neg m (e - scale), s)
          end
      end
  end.

(** The characters of a JSON string after its opening quote, decoded,
    and what follows the closing quote. *)
Fixpoint parse_chars (s : string) : option (string * string) :=
  let cons (decoded : string) (r : option (string * string)) :=
    match r with
    | Some (content, rest) => Some (decoded +:+ content, rest)
    | None => None
    end in
  match s with
  | EmptyString => None
  | String c rest =>
      let n := N_of_ascii c in
      if (n =? 34)%N then Some (EmptyString, rest)
      else if (n <? 32)%N then None
      else if negb (n =? 92)%N then cons (String c EmptyString) (parse_chars rest)
      else
        match rest with
        | EmptyString => None
        | String e rest1 =>
            let simple (d : N) :=
              cons (String (ascii_of_N d) EmptyString) (parse_chars rest1) in
            let e := N_of_ascii e in
            if (e =? 34)%N then simple 34%N
            else if (e =? 92)%N then simple 92%N
            else if (e =? 47)%N then simple 47%N
            else if (e =? 98)%N then simple 8%N
            else if (e =? 102)%N then simple 12%N
            else if (e =? 110)%N then simple 10%N
            else if (e =? 114)%N then simple 13%N
            else if (e =? 116)%N then simple 9%N
            else if negb (e =? 117)%N then None
            else
              match rest1 with
              | String h1 (String h2 (String h3 (String h4 rest2))) =>
                  match hex4 h1 h2 h3 h4 with
                  | None => None
                  | Some cu =>
                      let alone := cons (utf8 cu) (parse_chars rest2) in
                      if negb ((55296 <=? cu) && (cu <=? 56319))%N then alone
                      else
                        match rest2 with
                        | String b (String u (String l1 (String l2
                            (String l3 (String l4 rest3))))) =>
                            if negb (Ascii.eqb b "\" && Ascii.eqb u "u")
                            then alone
                            else
                              match hex4 l1 l2 l3 l4 with
                              | Some lo =>
                                  if ((56320 <=? lo) && (lo <=? 57343))%N
                                  then cons (utf8 (65536 + (cu - 55296) * 1024
                                                   + (lo - 56320))%N)
                                            (parse_chars rest3)
                                  else alone
                              | None => alone
                              end
                        | _ => alone
                        end
                  end
              | _ => None
              end
        end
  end.

(** [CreateDataProperty]: a name met again keeps its place and takes
    the new value. *)
Fixpoint set_prop (k : string) (v : json) (props : list (string * json))
  : list (string * json) :=
  match props with
  | [] => [(k, v)]
  | (k', v') :: rest =>
      if String.eqb k k' then (k, v) :: rest
      else (k', v') :: set_prop k v rest
  end.

Definition expect (c : ascii) (s : string) : option string :=
  match s with
  | String c' rest => if Ascii.eqb c c' then Some rest else None
  | EmptyString => None
  end.

(** A JSON value at the front of [s], white space before it skipped.
    [parse_elements] reads the elements of an array after its first
    bracket or a comma, [parse_members] the members of an object. Each
    call down the recursion takes one unit of [fuel]. *)
Fixpoint parse_value (fuel : nat) (s : string) : option (json * string) :=
  match fuel with
  | O => None
  | S fuel' =>
      match skip_ws s with
      | EmptyString => None
      | String c rest as s' =>
          if Ascii.eqb c "[" then
            match expect "]" (skip_ws rest) with
            | Some rest' => Some (JArr [], rest')
            | None =>
                match parse_elements fuel' rest with
                | Some (items, rest') => Some (JArr items, rest')
                | None => None
                end
            end
          else if Ascii.eqb c "{" then
            match expect "}" (skip_ws rest) with
            | Some rest' => Some (JObj [], rest')
            | None =>
                match parse_members fuel' rest [] with
                | Some (props, rest') => Some (JObj props, rest')
                | None => None
                end
            end
          else if Ascii.eqb c "034" then
            match parse_chars rest with
            | Some (content, rest') => Some (JStr content, rest')
            | None => None
            end
          else if String.prefix "null" s' then
            Some (JNull, String.substring 4 (String.length s' - 4) s')
          else if String.prefix "true" s' then
            Some (JBool true, String.substring 4 (String.length s' - 4) s')
          else if String.prefix "false" s' then
            Some (JBool false, String.substring 5 (String.length s' - 5) s')
          else
            match parse_number s' with
            | Some (x, rest') => Some (JNum x, rest')
            | None => None
            end
      end
  end

with parse_elements (fuel : nat) (s : string)
  : option (list json * string) :=
  match fuel with
  | O => None
  | S fuel' =>
      match parse_value fuel' s with
      | None => None
      | Some (v, rest) =>
          match skip_ws rest with
          | String c rest' =>
              if Ascii.eqb c "]" then Some ([v], rest')
              else if Ascii.eqb c "," then
                match parse_elements fuel' rest' with
                | Some (items, rest'') => Some (v :: items, rest'')
                | None => None
                end
              else None
          | EmptyString => None
          end
      end
  end

with parse_members (fuel : nat) (s : string) (props : list (string * json))
  : option (list (string * json) * string) :=
  match fuel with
  | O => None
  | S fuel' =>
      match expect "034" (skip_ws s) with
      | None => None
      | Some rest =>
          match parse_chars rest with
          | None => None
          | Some (k, rest) =>
              match expect ":" (skip_ws rest) with
              | None => None
              | Some rest =>
                  match parse_value fuel' rest with
                  | None => None
                  | Some (v, rest) =>
                      let props := set_prop k v props in
                      match skip_ws rest with
                      | String c rest' =>
                          if Ascii.eqb c "}" then Some (props, rest')
                          else if Ascii.eqb c "," then
                            parse_members fuel' rest' props
                          else None
                      | EmptyString => None
                      end
                  end
              end
          end
      end
  end.

(** [JSON.parse(text)], [None] for a [SyntaxError]. *)
Definition JSON_parse (text : string) : option json :=
  match parse_value (2 * String.length text + 2) text with
  | Some (v, rest) =>
      match skip_ws rest with
      | EmptyString => Some v
      | String _ _ => None
      end
  | None => None
  end.

(** The double quotes of a JSON text written with single quotes, for
    the examples. *)
Definition js (s : string) : string := Str.replaceAll "'" Str.dq s.

End ES.

(** * Specification *)

(** ** The target and the label of a file node *)

(** [stripped suffix s r]: [r] is [s] with the suffix taken off once when
    [s] ends with it, and [s] itself otherwise. *)
Inductive stripped (suffix : string) : string -> string -> Prop :=
| stripped_suffix (p : string) : stripped suffix (p +:+ suffix) p
| stripped_none (s : string) :
    (forall p, s <> p +:+ suffix) -> stripped suffix s s.

(** ** Anchors *)

Definition centroid (node : CanvasNode) : Point :=
  {| point_x := (node_x node + node_width node / 2)%float;
     point_y := (node_y node + node_height node / 2)%float |}.

(** ** The shape of a node and of an edge, after the specification

    The per-node and per-edge checks in the words of the specification
    (section 4.1, stages 3 and 4), to compare the validator with. *)

Definition is_string (v : option json) : bool :=
  match v with Some (JStr _) => true | _ => false end.

Definition is_number (v : option json) : bool :=
  match v with Some (JNum _) => true | _ => false end.

Definition is_object (v : json) : bool :=
  match v with JObj _ => true | _ => false end.

Definition recognized_type (t : string) : bool :=
  existsb (String.eqb t) ["text"; "file"; "link"; "group"].

Definition recognized_side (s : string) : bool :=
  existsb (String.eqb s) ["top"; "right"; "bottom"; "left"].

(** What is wrong with an element of [nodes]. *)
Inductive NodeDefect : Type :=
| NotAnObject
| MissingString (field : string)
| MissingNumber (field : string)
| InvalidType (typeValue : string).

(** The first defect of a node: it must be an object, supply [id] and
    [type] as strings, then [x], [y], [width], [height] as numbers, and
    its [type] must be one of the four. *)
Definition node_defect (v : json) : option NodeDefect :=
  if negb (is_object v) then Some NotAnObject
  else if negb (is_string (prop v "id")) then Some (MissingString "id")
  else if negb (is_string (prop v "type")) then Some (MissingString "type")
  else if negb (is_number (prop v "x")) then Some (MissingNumber "x")
  else if negb (is_number (prop v "y")) then Some (MissingNumber "y")
  else if negb (is_number (prop v "width")) then Some (MissingNumber "width")
  else if negb (is_number (prop v "height")) then Some (MissingNumber "height")
  else if negb (recognized_type (as_string (prop v "type")))
       then Some (InvalidType (as_string (prop v "type")))
  else None.

(** The field a defect is about. *)
Definition defect_field (d : NodeDefect) : option string :=
  match d with
  | NotAnObject => None
  | MissingString field | MissingNumber field => Some field
  | InvalidType _ => Some "type"
  end.

Definition node_error (index : nat) (d : NodeDefect) : string :=
  "Node at index " +:+ Str.of_index index +:+
  match d with
  | NotAnObject => " is not an object"
  | MissingString field =>
      " is missing required string field " +:+ Str.quoted field
  | MissingNumber field =>
      " is missing required number field " +:+ Str.quoted field
  | InvalidType typeValue =>
      " has invalid type " +:+ Str.quoted typeValue +:+
      ". Must be one of: text, file, link, group"
  end.

(** The fields of a well-shaped node: required ones as they are, an
    optional one when it is present and a string. *)
Definition node_of_json (v : json) : CanvasNode :=
  {| node_id := as_string (prop v "id");
     node_type := as_string (prop v "type");
     node_x := as_number (prop v "x");
     node_y := as_number (prop v "y");
     node_width := as_number (prop v "width");
     node_height := as_number (prop v "height");
     node_text := optional_string (prop v "text");
     node_file := optional_string (prop v "file");
     node_url := optional_string (prop v "url");
     node_label := optional_string (prop v "label");
     node_color := optional_string (prop v "color") |}.

(** An edge is well shaped when it is an object that supplies [id],
    [fromNode] and [toNode] as strings. *)
Definition edge_shaped (v : json) : bool :=
  is_object v && is_string (prop v "id") && is_string (prop v "fromNode")
  && is_string (prop v "toNode").

(** The canvas schema on a parsed value: an object whose [nodes] and
    [edges] are arrays of well-shaped nodes and edges. *)
Definition conforms (v : json) : bool :=
  is_object v
  && match prop v "nodes", prop v "edges" with
     | Some (JArr ns), Some (JArr es) =>
         forallb (fun n => match node_defect n with None => true | Some _ => false end) ns
         && forallb edge_shaped es
     | _, _ => false
     end.

(** A text conforms when it is JSON and its value conforms. *)
Definition conforming (JSON_parse : string -> option json) (raw : string)
  : bool :=
  match JSON_parse raw with
  | Some v => conforms v
  | None => false
  end.

(** The elements of an array validated one after the other from index
    [i] on: all the results, or the error of the first element that has
    one. *)
Fixpoint validate_all {A : Type} (validate : json -> nat -> string + A)
    (raws : list json) (i : nat) : string + list A :=
  match raws with
  | [] => inr []
  | raw :: rest =>
      match validate raw i with
      | inl error => inl error
      | inr a =>
          match validate_all validate rest (S i) with
          | inl error => inl error
          | inr l => inr (a :: l)
          end
      end
  end.

(** An edge is connected when both its ends are node ids. *)
Definition connected (nodeIds : gset string) (edge : CanvasEdge) : bool :=
  bool_decide (edge_fromNode edge ∈ nodeIds)
  && bool_decide (edge_toNode edge ∈ nodeIds).

(** The end of a dangling edge that the warning reports: [fromNode] when
    it is missing, [toNode] otherwise. *)
Definition dangling_warning (nodeIds : gset string) (edge : CanvasEdge)
  : CanvasParseWarning :=
  if bool_decide (edge_fromNode edge ∈ nodeIds) then toNode_warning edge
  else fromNode_warning edge.

Definition missing_end (nodeIds : gset string) (edge : CanvasEdge)
  : option string :=
  if negb (bool_decide (edge_fromNode edge ∈ nodeIds))
  then Some (edge_fromNode edge)
  else if negb (bool_decide (edge_toNode edge ∈ nodeIds))
  then Some (edge_toNode edge)
  else None.

(** ** [parseCanvasData] *)

Definition node_ids (ns : list CanvasNode) : gset string :=
  list_to_set (map node_id ns).

(** ** Runs on concrete inputs *)

(** One node [a] and three edges: one to a node that is not there, one
    between two nodes that are not there, one from [a] to itself. *)
Definition canvas_with_ghosts : string :=
  ES.js ("{'nodes':[{'id':'a','type':'text','x':0,'y':0,'width':100,'height':50}]," +:+
         "'edges':[{'id':'e1','fromNode':'a','toNode':'ghost'}," +:+
         "{'id':'e2','fromNode':'nobody','toNode':'ghost'}," +:+
         "{'id':'e3','fromNode':'a','toNode':'a'}]}").

(** A good node, a node without [height], and a number. *)
Definition canvas_with_bad_node : string :=
  ES.js ("{'nodes':[{'id':'a','type':'text','x':0,'y':0,'width':100,'height':50}," +:+
         "{'id':'b','type':'texty','x':0,'y':0,'width':100}, 5],'edges':[]}").

(** ** The transformer *)

(** The test of the specification for canvas JSON, on a parsed value: a
    non-null, non-array object whose [nodes] and [edges] are arrays. *)
Definition canvas_shaped (v : json) : bool :=
  is_object v && isArray (prop v "nodes") && isArray (prop v "edges").

(** A text is recognized when it parses as JSON to such a value. *)
Definition recognized (JSON_parse : string -> option json) (text : string)
  : bool :=
  match JSON_parse text with
  | Some v => canvas_shaped v
  | None => false
  end.

(** What the transformer returns for a text it takes for a canvas: the
    rendering of the validated document, or the error block. *)
Definition rendering (JSON_parse : string -> option json)
    (JSON_stringify : json -> string) (Number_toString : float -> string)
    (cfg_baseUrl : option string) (text : string) : string :=
  match parseCanvasData JSON_parse text with
  | ParseError error => renderCanvasError error
  | ParseSuccess data _ =>
      renderCanvasToHtml JSON_stringify Number_toString (arg_of_data data)
                         (or_empty cfg_baseUrl)
  end.

(** The byte order mark U+FEFF, which [trim] takes for white space and
    JSON does not. *)
Definition BOM : string :=
  String "239" (String "187" (String "191" EmptyString)).

Definition empty_canvas : string := ES.js "{'nodes':[],'edges':[]}".

(** ** The embedded payload *)

(** A text node whose text is a script element. *)
Definition canvas_with_script : string :=
  ES.js ("{'nodes':[{'id':'n1','type':'text','x':0,'y':0,'width':200," +:+
         "'height':100,'text':'</script><script>alert(1)</script>'}]," +:+
         "'edges':[]}").

(** ** Serializing and parsing again *)




(** ** Escaping *)

(** What [escapeHtml] makes of one character. *)
Definition escape_char (c : ascii) : string :=
  if Ascii.eqb c "&" then "&amp;"
  else if Ascii.eqb c "<" then "&lt;"
  else if Ascii.eqb c ">" then "&gt;"
  else if Ascii.eqb c "034" then "&quot;"
  else if Ascii.eqb c "'" then "&#039;"
  else String c EmptyString.

(** The characters that open or close a tag or an attribute value. *)
Definition is_markup (c : ascii) : bool :=
  Ascii.eqb c "<" || Ascii.eqb c ">" || Ascii.eqb c "034" || Ascii.eqb c "'".

Fixpoint no_markup (s : string) : bool :=
  match s with
  | EmptyString => true
  | String c s' => negb (is_markup c) && no_markup s'
  end.

(** ** The round trip of a document with plain numbers *)





(** What a successful parse ensures of a node and of an edge. *)
Definition typed_node (node : CanvasNode) : bool :=
  recognized_type (node_type node).

Definition sided (side : option string) : bool :=
  match side with
  | Some s => recognized_side s
  | None => true
  end.

Definition sided_edge (edge : CanvasEdge) : bool :=
  sided (edge_fromSide edge) && sided (edge_toSide edge).

(** Two nodes with optional fields and a fraction, an edge with a side
    that is kept and one that is dropped. *)
Definition canvas_with_sides : string :=
  ES.js ("{'nodes':[{'id':'a','type':'text','x':-12.5,'y':0,'width':100," +:+
         "'height':50,'text':'Hi <b>'},{'id':'g','type':'group','x':1e3," +:+
         "'y':0.5,'width':2,'height':3,'label':'G','color':'#fff'}]," +:+
         "'edges':[{'id':'e','fromNode':'a','toNode':'g','fromSide':'top'," +:+
         "'toSide':'sideways','label':'go'}]}").

(** ** Unescaping *)

(** The inverse reading of an escaped text: each of the five entities is
    one character, any other character is itself. [skip] characters are
    passed over first, the rest of an entity that was just read. *)
Fixpoint unescape_from (skip : nat) (s : string) : string :=
  match s with
  | EmptyString => EmptyString
  | String c rest =>
      match skip with
      | S skip' => unescape_from skip' rest
      | O =>
          if String.prefix "&amp;" s then String "&" (unescape_from 4 rest)
          else if String.prefix "&lt;" s then String "<" (unescape_from 3 rest)
          else if String.prefix "&gt;" s then String ">" (unescape_from 3 rest)
          else if String.prefix "&quot;" s
          then String "034" (unescape_from 5 rest)
          else if String.prefix "&#039;" s
          then String "'" (unescape_from 5 rest)
          else String c (unescape_from 0 rest)
      end
  end.

Definition unescapeHtml (s : string) : string := unescape_from 0 s.


(** ** The tags of the markup *)

(** The tags of the element of a node: six for a group, four for any
    other node. *)
Definition node_tags (node : CanvasNode) : nat :=
  if String.eqb (node_type node) "group" then 6 else 4.

Definition sum (l : list nat) : nat := fold_right Nat.add 0 l.

(** The opening tag of the connector of an edge up to its label. *)
Definition edge_attributes (edge : CanvasEdge) : string :=
  "<line class=" +:+ Str.quoted "canvas-edge" +:+
  " data-edge-id=" +:+ Str.quoted (escapeHtml (edge_id edge)) +:+
  " data-from-node=" +:+ Str.quoted (escapeHtml (edge_fromNode edge)) +:+
  " data-to-node=" +:+ Str.quoted (escapeHtml (edge_toNode edge)).

(** A document of nodes of the four types, one of them twice. *)
Definition five_nodes : list CanvasNode :=
  [mkNode "t<1>" "text" 0 0 100 50 (Some "a < b") None None None None;
   mkNode "f" "file" 120 0 100 50 None (Some "A/B.md") None None None;
   mkNode "g" "group" (-20) (-20) 400 300 None None None (Some "G & H") None;
   mkNode "l" "link" 0 80 100 50 None None (Some "https://x.y/?a=1&b=2") None
          None;
   mkNode "t<1>" "text" 0 160 100 50 None None None None None].

Definition two_edges : list CanvasEdge :=
  [mkEdge "e1" "t<1>" "f" None None (Some "goes 'to'") None;
   mkEdge "e2" "f" "l" (Some "top") None None None].


(** ** The shape of an edge, and the fields that are read *)

(** What is wrong with an element of [edges]. *)
Inductive EdgeDefect : Type :=
| EdgeNotAnObject
| EdgeMissingString (field : string).

(** The first defect of an edge: it must be an object and supply [id],
    [fromNode] and [toNode] as strings. *)
Definition edge_defect (v : json) : option EdgeDefect :=
  if negb (is_object v) then Some EdgeNotAnObject
  else if negb (is_string (prop v "id")) then Some (EdgeMissingString "id")
  else if negb (is_string (prop v "fromNode"))
  then Some (EdgeMissingString "fromNode")
  else if negb (is_string (prop v "toNode"))
  then Some (EdgeMissingString "toNode")
  else None.

Definition edge_error (index : nat) (d : EdgeDefect) : string :=
  "Edge at index " +:+ Str.of_index index +:+
  match d with
  | EdgeNotAnObject => " is not an object"
  | EdgeMissingString field =>
      " is missing required string field " +:+ Str.quoted field
  end.

(** The names of the properties that the validator reads in a node, in
    an edge and in the document. *)
Definition node_fields : list string :=
  ["id"; "type"; "x"; "y"; "width"; "height";
   "text"; "file"; "url"; "label"; "color"].
Definition edge_fields : list string :=
  ["id"; "fromNode"; "toNode"; "fromSide"; "toSide"; "label"; "color"].
Definition document_fields : list string := ["nodes"; "edges"].

(** The messages of the checks of the whole value. *)
Definition schema_errors : list string :=
  ["Malformed JSON: unable to parse canvas file";
   "Invalid canvas schema: expected an object with nodes and edges";
   "Invalid canvas schema: " +:+ Str.quoted "nodes" +:+ " must be an array";
   "Invalid canvas schema: " +:+ Str.quoted "edges" +:+ " must be an array"].

(** A good node, an edge to a node that is not there, and an edge
    without [toNode]. *)
Definition canvas_with_bad_edge : string :=
  ES.js ("{'nodes':[{'id':'a','type':'text','x':0,'y':0,'width':100,'height':50}]," +:+
         "'edges':[{'id':'e1','fromNode':'a','toNode':'ghost'}," +:+
         "{'id':'e2','fromNode':'a'}, 7]}").


(** ** Wrapped lines *)

(** A line fits when it is one word, or no word, or its text is not
    longer than the width. *)
Definition fits (measure : string -> float) (maxWidth : float)
    (line : list string) : Prop :=
  length line <= 1 \/
  PrimFloat.ltb maxWidth (measure (Str.join " " line)) = false.

(** The lines are broken only where they are full: a line with the first
    word of the next one would be longer than the width. *)
Fixpoint broken_when_full (measure : string -> float) (maxWidth : float)
    (lines : list (list string)) : Prop :=
  match lines with
  | line :: (next :: _) as later =>
      match next with
      | word :: _ =>
          PrimFloat.ltb maxWidth (measure (Str.join " " (line ++ [word])))
          = true
      | [] => False
      end /\ broken_when_full measure maxWidth later
  | _ => True
  end.

(** The file node of the unit test. *)
Definition gandalf : CanvasNode :=
  mkNode "f1" "file" 0 0 200 100 None (Some "Characters/Gandalf.md")
         None None None.

(** * Properties *)

(** ** Strings *)

Lemma append_nil (s : string) : "" +:+ s = s.
Proof. reflexivity. Qed.

Lemma append_cons (x : ascii) (a b : string) :
  String x a +:+ b = String x (a +:+ b).
Proof. reflexivity. Qed.

Ltac push_append := rewrite ?append_cons, ?append_nil.

Lemma append_assoc (a b c : string) : (a +:+ b) +:+ c = a +:+ (b +:+ c).
Proof. induction a as [|x a IH]; push_append; congruence. Qed.

Lemma append_empty_r (s : string) : s +:+ "" = s.
Proof. induction s as [|x s IH]; push_append; congruence. Qed.

Lemma length_append (a b : string) :
  String.length (a +:+ b) = String.length a + String.length b.
Proof. induction a as [|x a IH]; push_append; simpl; congruence. Qed.

Lemma substring_whole (s : string) : String.substring 0 (String.length s) s = s.
Proof. induction s as [|x s IH]; simpl; congruence. Qed.

Lemma substring_append_l (p s : string) :
  String.substring 0 (String.length p) (p +:+ s) = p.
Proof.
  induction p as [|x p IH]; push_append; simpl.
  - now destruct s.
  - congruence.
Qed.

Lemma substring_append_r (p s : string) :
  String.substring (String.length p) (String.length s) (p +:+ s) = s.
Proof.
  induction p as [|x p IH]; push_append; simpl;
    [apply substring_whole | exact IH].
Qed.

(** A string is its first [n] characters followed by the others. *)
Lemma substring_split (s : string) (n : nat) :
  n <= String.length s ->
  s = String.substring 0 n s +:+ String.substring n (String.length s - n) s.
Proof.
  revert n. induction s as [|x s IH]; intros n Hn; simpl in *.
  - now destruct n.
  - destruct n as [|n]; simpl; push_append.
    + now rewrite substring_whole.
    + f_equal. apply IH. lia.
Qed.

Lemma endsWith_append (p suffix : string) :
  Str.endsWith (p +:+ suffix) suffix = true.
Proof.
  unfold Str.endsWith. rewrite length_append.
  replace (String.length p + String.length suffix - String.length suffix)
    with (String.length p) by lia.
  rewrite substring_append_r, String.eqb_refl, andb_true_r.
  apply Nat.leb_le. lia.
Qed.

Lemma endsWith_true (s suffix : string) :
  Str.endsWith s suffix = true ->
  s = Str.slice_end s (String.length suffix) +:+ suffix.
Proof.
  unfold Str.endsWith, Str.slice_end. intros H.
  apply andb_true_iff in H as [Hlen Heq].
  apply Nat.leb_le in Hlen. apply String.eqb_eq in Heq.
  set (n := String.length s - String.length suffix) in *.
  rewrite (substring_split s n) at 1 by lia.
  f_equal. replace (String.length s - n) with (String.length suffix) by lia.
  exact Heq.
Qed.

Lemma endsWith_false (s suffix : string) :
  Str.endsWith s suffix = false -> forall p, s <> p +:+ suffix.
Proof.
  intros H p ->. now rewrite endsWith_append in H.
Qed.

(** ** The target and the label of a file node *)

Lemma stripped_cut (suffix s : string) :
  stripped suffix s
    (if Str.endsWith s suffix then Str.slice_end s (String.length suffix) else s).
Proof.
  destruct (Str.endsWith s suffix) eqn:E.
  - rewrite (endsWith_true _ _ E) at 1. constructor.
  - constructor. now apply endsWith_false.
Qed.

Lemma resolveFileUrl_stripped (baseUrl filePath : string) :
  exists base path,
    stripped "/" baseUrl base /\ stripped ".md" filePath path /\
    resolveFileUrl baseUrl filePath = base +:+ "/" +:+ path.
Proof.
  eexists _, _. split; [|split]; [| |reflexivity].
  - apply (stripped_cut "/").
  - apply (stripped_cut ".md").
Qed.

(** C7. For every file node and base URL the link of the rendered node
    has as target, escaped, the base URL without one trailing slash, a
    slash, and the file path of the node without a final [.md]; its label
    is the escaped file path as it is, with the suffix. A node without a
    [file] has the empty path. *)
Theorem file_node_link (Number_toString : float -> string)
    (node : CanvasNode) (baseUrl : string) :
  exists base path,
    stripped "/" baseUrl base /\
    stripped ".md" (or_empty (node_file node)) path /\
    renderFileNode Number_toString node baseUrl =
      node_open Number_toString "file" node +:+
      "<a href=" +:+ Str.quoted (escapeHtml (base +:+ "/" +:+ path)) +:+ ">" +:+
      escapeHtml (or_empty (node_file node)) +:+ "</a>" +:+ "</div>".
Proof.
  destruct (resolveFileUrl_stripped baseUrl (or_empty (node_file node)))
    as (base & path & Hbase & Hpath & Heq).
  exists base, path. split; [exact Hbase|]. split; [exact Hpath|].
  unfold renderFileNode. now rewrite Heq.
Qed.

(** The file node of the unit test: the target loses [.md], the label
    keeps it. *)
Example file_node_gandalf :
  renderFileNode ES.Number_toString
    (mkNode "f1" "file" 0 0 200 100 None (Some "Characters/Gandalf.md")
            None None None)
    "https://example.github.io/wiki/" =
  ES.js ("<div class='canvas-node canvas-node-file' data-node-id='f1' " +:+
         "style='position:absolute;left:0px;top:0px;width:200px;height:100px;'>" +:+
         "<a href='https://example.github.io/wiki/Characters/Gandalf'>" +:+
         "Characters/Gandalf.md</a></div>").
Proof. vm_compute. reflexivity. Qed.

(** ** Anchors *)

(** C8. The anchor of a node is the middle of the side the hint names,
    and the centroid of the rectangle when the hint is absent or is none
    of [top], [bottom], [left], [right]. *)
Theorem getNodeAnchor_sides (node : CanvasNode) :
  let x := node_x node in
  let y := node_y node in
  let width := node_width node in
  let height := node_height node in
  getNodeAnchor node (Some "top") =
    {| point_x := (x + width / 2)%float; point_y := y |} /\
  getNodeAnchor node (Some "bottom") =
    {| point_x := (x + width / 2)%float; point_y := (y + height)%float |} /\
  getNodeAnchor node (Some "left") =
    {| point_x := x; point_y := (y + height / 2)%float |} /\
  getNodeAnchor node (Some "right") =
    {| point_x := (x + width)%float; point_y := (y + height / 2)%float |} /\
  getNodeAnchor node None =
    {| point_x := (x + width / 2)%float; point_y := (y + height / 2)%float |} /\
  forall hint : string,
    In hint ["top"; "bottom"; "left"; "right"] \/
    getNodeAnchor node (Some hint) = centroid node.
Proof.
  cbv zeta. repeat split.
  intros hint. unfold getNodeAnchor, centroid.
  destruct (String.eqb_spec hint "top") as [->|_]; [left; simpl; tauto|].
  destruct (String.eqb_spec hint "bottom") as [->|_]; [left; simpl; tauto|].
  destruct (String.eqb_spec hint "left") as [->|_]; [left; simpl; tauto|].
  destruct (String.eqb_spec hint "right") as [->|_]; [left; simpl; tauto|].
  right. reflexivity.
Qed.

(** A rectangle at (10, 20) of 400 by 300. *)
Example anchors_of_a_rectangle :
  let node := mkNode "g1" "group" 10 20 400 300 None None None None None in
  map (getNodeAnchor node)
      [Some "top"; Some "right"; Some "bottom"; Some "left"; None; Some "up"] =
  [mkPoint 210 20; mkPoint 410 170; mkPoint 210 320; mkPoint 10 170;
   mkPoint 210 170; mkPoint 210 170].
Proof. vm_compute. reflexivity. Qed.

(** ** The validator against the shape *)

Lemma typeof_string (v : option json) :
  String.eqb (typeof v) "string" = is_string v.
Proof. destruct v as [[]|]; reflexivity. Qed.

Lemma typeof_number (v : option json) :
  String.eqb (typeof v) "number" = is_number v.
Proof. destruct v as [[]|]; reflexivity. Qed.

Lemma isRecord_object (v : json) : isRecord v = is_object v.
Proof. destruct v; reflexivity. Qed.

Lemma in_set_existsb (t : string) (l : list string) :
  bool_decide (t ∈ (list_to_set l : gset string)) = existsb (String.eqb t) l.
Proof.
  apply eq_true_iff_eq. rewrite bool_decide_eq_true, elem_of_list_to_set.
  rewrite existsb_exists, list_elem_of_In. split.
  - intros H. exists t. split; [exact H | apply String.eqb_refl].
  - intros (x & Hx & Heq). apply String.eqb_eq in Heq. now subst.
Qed.

Lemma valid_type_recognized (t : string) :
  bool_decide (t ∈ VALID_NODE_TYPES) = recognized_type t.
Proof. apply in_set_existsb. Qed.

Lemma valid_side_recognized (s : string) :
  bool_decide (s ∈ VALID_SIDES) = recognized_side s.
Proof. apply in_set_existsb. Qed.

(** [validateNode] reports the first defect, or builds the node. *)
Lemma validateNode_defect (raw : json) (index : nat) :
  validateNode raw index =
  match node_defect raw with
  | Some d => inl (node_error index d)
  | None => inr (node_of_json raw)
  end.
Proof.
  unfold validateNode, node_defect, first_not_typed, node_error, node_of_json.
  rewrite isRecord_object. destruct (is_object raw); [|reflexivity].
  cbn [List.find negb]. rewrite !typeof_string, !typeof_number.
  rewrite valid_type_recognized.
  destruct (is_string (prop raw "id")); [|reflexivity].
  destruct (is_string (prop raw "type")); [|reflexivity].
  destruct (is_number (prop raw "x")); [|reflexivity].
  destruct (is_number (prop raw "y")); [|reflexivity].
  destruct (is_number (prop raw "width")); [|reflexivity].
  destruct (is_number (prop raw "height")); [|reflexivity].
  cbn [negb].
  destruct (recognized_type (as_string (prop raw "type"))); reflexivity.
Qed.

Lemma validateEdge_shaped (raw : json) (index : nat) :
  edge_shaped raw = true <-> exists edge, validateEdge raw index = inr edge.
Proof.
  unfold validateEdge, edge_shaped, first_not_typed.
  rewrite isRecord_object. destruct (is_object raw); cbn [negb andb].
  2:{ split; [discriminate | intros [? ?]; discriminate]. }
  cbn [List.find]. rewrite !typeof_string.
  destruct (is_string (prop raw "id")); cbn [negb andb];
    [|split; [discriminate | intros [? ?]; discriminate]].
  destruct (is_string (prop raw "fromNode")); cbn [negb andb];
    [|split; [discriminate | intros [? ?]; discriminate]].
  destruct (is_string (prop raw "toNode")); cbn [negb andb];
    [|split; [discriminate | intros [? ?]; discriminate]].
  split; [eauto | reflexivity].
Qed.

(** The loops of [parseCanvasData] are [validate_all] with the pushes. *)
Lemma validate_nodes_all (raws : list json) (i : nat) (acc : list CanvasNode) :
  validate_nodes raws i acc =
  match validate_all validateNode raws i with
  | inl error => inl error
  | inr ns => inr (acc ++ ns)
  end.
Proof.
  revert i acc. induction raws as [|raw rest IH]; intros i acc; simpl.
  - now rewrite app_nil_r.
  - destruct (validateNode raw i) as [error|node]; [reflexivity|].
    rewrite IH. destruct (validate_all validateNode rest (S i)); [reflexivity|].
    now rewrite <- app_assoc.
Qed.

Lemma validate_edges_all (nodeIds : gset string) (raws : list json) (i : nat)
    (acc : list CanvasEdge) (warnings : list CanvasParseWarning) :
  validate_edges nodeIds raws i acc warnings =
  match validate_all validateEdge raws i with
  | inl error => inl error
  | inr es =>
      inr (acc ++ List.filter (connected nodeIds) es,
           warnings ++ map (dangling_warning nodeIds)
             (List.filter (fun edge => negb (connected nodeIds edge)) es))
  end.
Proof.
  revert i acc warnings.
  induction raws as [|raw rest IH]; intros i acc warnings; simpl.
  - now rewrite !app_nil_r.
  - destruct (validateEdge raw i) as [error|edge]; [reflexivity|].
    rewrite !IH. destruct (validate_all validateEdge rest (S i)) as [|es];
      [now repeat destruct (bool_decide _)|].
    assert (Hc : connected nodeIds edge =
                 bool_decide (edge_fromNode edge ∈ nodeIds)
                 && bool_decide (edge_toNode edge ∈ nodeIds)) by reflexivity.
    assert (Hw : dangling_warning nodeIds edge =
                 if bool_decide (edge_fromNode edge ∈ nodeIds)
                 then toNode_warning edge else fromNode_warning edge)
      by reflexivity.
    cbn [List.filter]. rewrite Hc.
    destruct (bool_decide (edge_fromNode edge ∈ nodeIds)); cbn [negb andb];
      [destruct (bool_decide (edge_toNode edge ∈ nodeIds)); cbn [negb andb]|];
      cbn [map]; rewrite ?Hw, <- ?app_assoc; reflexivity.
Qed.

(** ** [parseCanvasData] *)

Lemma node_ids_In (ns : list CanvasNode) (k : string) :
  bool_decide (k ∈ node_ids ns) = true <-> In k (map node_id ns).
Proof.
  unfold node_ids.
  now rewrite bool_decide_eq_true, elem_of_list_to_set, list_elem_of_In.
Qed.

(** A successful [validate_canvas]: the value is an object with two
    arrays, all elements of both are well shaped, the document has all
    the nodes and the connected edges, and there is one warning for each
    of the other edges, all in the order of the arrays. *)
Lemma validate_canvas_success (parsed : json) (data : CanvasData)
    (warnings : list CanvasParseWarning) :
  validate_canvas parsed = ParseSuccess data warnings ->
  exists rawNodes rawEdges ns es,
    is_object parsed = true /\
    prop parsed "nodes" = Some (JArr rawNodes) /\
    prop parsed "edges" = Some (JArr rawEdges) /\
    validate_all validateNode rawNodes 0 = inr ns /\
    validate_all validateEdge rawEdges 0 = inr es /\
    data = {| nodes := ns; edges := List.filter (connected (node_ids ns)) es |} /\
    warnings = map (dangling_warning (node_ids ns))
                   (List.filter (fun e => negb (connected (node_ids ns) e)) es).
Proof.
  unfold validate_canvas. rewrite isRecord_object.
  destruct (is_object parsed); [|discriminate]. cbn [negb].
  destruct (prop parsed "nodes") as [[| | | |rawNodes|]|]; try discriminate.
  destruct (prop parsed "edges") as [[| | | |rawEdges|]|]; try discriminate.
  cbn [isArray negb as_array].
  rewrite validate_nodes_all.
  destruct (validate_all validateNode rawNodes 0) as [|ns] eqn:Hns;
    [discriminate|].
  rewrite validate_edges_all.
  destruct (validate_all validateEdge rawEdges 0) as [|es] eqn:Hes;
    [discriminate|].
  cbn [app]. intros [= <- <-].
  exists rawNodes, rawEdges, ns, es. repeat split; (reflexivity || assumption).
Qed.

(** Every error message starts with some text. *)
Lemma validateNode_error (raw : json) (i : nat) (error : string) :
  validateNode raw i = inl error -> error <> "".
Proof.
  rewrite validateNode_defect. destruct (node_defect raw); [|discriminate].
  intros [= <-]. discriminate.
Qed.

Lemma validateEdge_error (raw : json) (i : nat) (error : string) :
  validateEdge raw i = inl error -> error <> "".
Proof.
  unfold validateEdge. destruct (isRecord raw); cbn [negb].
  - destruct (first_not_typed _ _ _); [|discriminate]. intros [= <-]. discriminate.
  - intros [= <-]. discriminate.
Qed.

Lemma validate_all_error {A : Type} (validate : json -> nat -> string + A)
    (raws : list json) (i : nat) (error : string) :
  (forall raw j e, validate raw j = inl e -> e <> "") ->
  validate_all validate raws i = inl error -> error <> "".
Proof.
  intros Hv. revert i. induction raws as [|raw rest IH]; intros i; simpl.
  - discriminate.
  - destruct (validate raw i) as [e|a] eqn:E.
    + intros [= <-]. eauto.
    + destruct (validate_all validate rest (S i)) eqn:E'; [|discriminate].
      intros [= <-]. eauto.
Qed.

Lemma validate_canvas_error (parsed : json) (error : string) :
  validate_canvas parsed = ParseError error -> error <> "".
Proof.
  unfold validate_canvas.
  destruct (isRecord parsed); cbn [negb]; [|intros [= <-]; discriminate].
  destruct (isArray (prop parsed "nodes")); cbn [negb];
    [|intros [= <-]; discriminate].
  destruct (isArray (prop parsed "edges")); cbn [negb];
    [|intros [= <-]; discriminate].
  rewrite validate_nodes_all.
  destruct (validate_all validateNode _ 0) as [e|ns] eqn:Hns.
  - intros [= <-]. eapply validate_all_error; [|exact Hns].
    apply validateNode_error.
  - rewrite validate_edges_all.
    destruct (validate_all validateEdge _ 0) as [e|es] eqn:Hes; [|discriminate].
    intros [= <-]. eapply validate_all_error; [|exact Hes].
    apply validateEdge_error.
Qed.

(** All elements well shaped, all elements validated. *)
Lemma validate_all_nodes_ok (raws : list json) (i : nat) :
  forallb (fun n => match node_defect n with None => true | Some _ => false end)
          raws = true ->
  exists ns, validate_all validateNode raws i = inr ns.
Proof.
  revert i. induction raws as [|raw rest IH]; intros i; simpl.
  - eauto.
  - rewrite validateNode_defect. destruct (node_defect raw); [discriminate|].
    cbn [andb]. intros H. destruct (IH (S i) H) as [ns ->]. eauto.
Qed.

Lemma validate_all_edges_ok (raws : list json) (i : nat) :
  forallb edge_shaped raws = true ->
  exists es, validate_all validateEdge raws i = inr es.
Proof.
  revert i. induction raws as [|raw rest IH]; intros i; simpl.
  - eauto.
  - intros H. apply andb_true_iff in H as [Hraw Hrest].
    apply (validateEdge_shaped raw i) in Hraw as [edge ->].
    destruct (IH (S i) Hrest) as [es ->]. eauto.
Qed.

(** The validator accepts the values that conform to the schema, and
    only those. *)
Lemma validate_canvas_conforms (parsed : json) :
  conforms parsed = true <->
  exists data warnings, validate_canvas parsed = ParseSuccess data warnings.
Proof.
  split.
  - unfold conforms, validate_canvas. rewrite isRecord_object.
    destruct (is_object parsed); [|discriminate]. cbn [andb negb].
    destruct (prop parsed "nodes") as [[| | | |rawNodes|]|]; try discriminate.
    destruct (prop parsed "edges") as [[| | | |rawEdges|]|]; try discriminate.
    cbn [isArray negb as_array]. intros H.
    apply andb_true_iff in H as [Hn He].
    rewrite validate_nodes_all.
    destruct (validate_all_nodes_ok rawNodes 0 Hn) as [ns ->].
    rewrite validate_edges_all.
    destruct (validate_all_edges_ok rawEdges 0 He) as [es ->]. eauto.
  - intros (data & warnings & H).
    apply validate_canvas_success in H
      as (rawNodes & rawEdges & ns & es & Hobj & Hn & He & Hns & Hes & _).
    unfold conforms. rewrite Hobj, Hn, He. cbn [andb].
    apply andb_true_iff. split.
    + clear -Hns. revert ns Hns. generalize 0.
      induction rawNodes as [|raw rest IH]; intros i ns; simpl; [reflexivity|].
      rewrite validateNode_defect. destruct (node_defect raw); [discriminate|].
      destruct (validate_all validateNode rest (S i)) eqn:E; [discriminate|].
      intros _. cbn [andb]. eauto.
    + clear -Hes. revert es Hes. generalize 0.
      induction rawEdges as [|raw rest IH]; intros i es; simpl; [reflexivity|].
      destruct (validateEdge raw i) eqn:E; [discriminate|].
      destruct (validate_all validateEdge rest (S i)) eqn:E'; [discriminate|].
      intros _. apply andb_true_iff. split; [|eauto].
      apply (validateEdge_shaped raw i). eauto.
Qed.

Lemma filter_partition_length {A : Type} (f : A -> bool) (l : list A) :
  length l = length (List.filter f l)
             + length (List.filter (fun a => negb (f a)) l).
Proof.
  induction l as [|a l IH]; simpl; [reflexivity|].
  destruct (f a); simpl; lia.
Qed.

(** A node with a defect after nodes without one stops the validation
    with its error, whatever comes after it. *)
Lemma validate_all_first_defect (pre rest : list json) (bad : json)
    (d : NodeDefect) (i : nat) :
  Forall (fun v => node_defect v = None) pre ->
  node_defect bad = Some d ->
  validate_all validateNode (pre ++ bad :: rest) i
  = inl (node_error (i + length pre) d).
Proof.
  intros Hpre Hbad. revert i.
  induction Hpre as [|v pre Hv _ IH]; intros i; simpl.
  - rewrite validateNode_defect, Hbad. now rewrite Nat.add_0_r.
  - rewrite validateNode_defect, Hv, IH. f_equal. f_equal. lia.
Qed.

Lemma occurs_in_middle (a s b : string) : Str.occurs_in s (a +:+ s +:+ b).
Proof. now exists a, b. Qed.

Lemma occurs_in_append_l (a t s : string) :
  Str.occurs_in s t -> Str.occurs_in s (a +:+ t).
Proof.
  intros (pre & post & ->). exists (a +:+ pre), post.
  now rewrite append_assoc.
Qed.

(** The message of a defect has the index of the node and the field. *)
Lemma node_error_names (index : nat) (d : NodeDefect) :
  Str.occurs_in (Str.of_index index) (node_error index d) /\
  match defect_field d with
  | Some field => Str.occurs_in field (node_error index d)
  | None => True
  end.
Proof.
  split; [apply occurs_in_middle|].
  unfold node_error, Str.quoted.
  destruct d as [|field|field|typeValue]; cbn [defect_field]; [exact I| | |].
  - do 3 apply occurs_in_append_l. apply occurs_in_middle.
  - do 3 apply occurs_in_append_l. apply occurs_in_middle.
  - exists ("Node at index " +:+ Str.of_index index +:+ " has invalid "),
           (" " +:+ (Str.dq +:+ typeValue +:+ Str.dq) +:+
            ". Must be one of: text, file, link, group").
    rewrite !append_assoc. reflexivity.
Qed.

Lemma warning_names (nodeIds : gset string) (edge : CanvasEdge)
    (missing : string) :
  missing_end nodeIds edge = Some missing ->
  Str.occurs_in (Str.quoted (edge_id edge))
                (message (dangling_warning nodeIds edge)) /\
  Str.occurs_in (Str.quoted missing)
                (message (dangling_warning nodeIds edge)).
Proof.
  unfold missing_end, dangling_warning.
  destruct (bool_decide (edge_fromNode edge ∈ nodeIds)); cbn [negb].
  - destruct (bool_decide (edge_toNode edge ∈ nodeIds)); cbn [negb];
      [discriminate|]. intros [= <-]. split.
    + apply occurs_in_middle.
    + do 2 apply occurs_in_append_l. apply occurs_in_middle.
  - intros [= <-]. split.
    + apply occurs_in_middle.
    + do 2 apply occurs_in_append_l. apply occurs_in_middle.
Qed.

Section Validation.

Variable JSON_parse : string -> option json.

Variable JSON_stringify : json -> string.

Variable Number_toString : float -> string.

Lemma parseCanvasData_success (raw : string) (data : CanvasData)
    (warnings : list CanvasParseWarning) :
  parseCanvasData JSON_parse raw = ParseSuccess data warnings ->
  exists parsed, JSON_parse raw = Some parsed /\
                 validate_canvas parsed = ParseSuccess data warnings.
Proof.
  unfold parseCanvasData. destruct (JSON_parse raw) as [parsed|];
    [eauto | discriminate].
Qed.

(** C3. A text that does not conform to the canvas schema, because it is
    not JSON or because its value has not the shape, is never accepted
    and never makes the parser fail otherwise: [parseCanvasData] returns
    the error variant, with a message that is not empty, and
    [renderCanvasError] of that message is the error block: the two
    opening tags, the escaped message, the two closing tags. *)
Theorem nonconforming_text_is_an_error (raw : string) :
  conforming JSON_parse raw = false ->
  exists error,
    parseCanvasData JSON_parse raw = ParseError error /\
    error <> "" /\
    renderCanvasError error =
      ("<div class=" +:+ Str.quoted "canvas-error" +:+ ">" +:+
       "<p class=" +:+ Str.quoted "canvas-error-message" +:+ ">") +:+
      escapeHtml error +:+ "</p></div>".
Proof.
  unfold conforming, parseCanvasData. intros Hraw.
  assert (Hblock : forall error, renderCanvasError error =
      ("<div class=" +:+ Str.quoted "canvas-error" +:+ ">" +:+
       "<p class=" +:+ Str.quoted "canvas-error-message" +:+ ">") +:+
      escapeHtml error +:+ "</p></div>").
  { intros error. unfold renderCanvasError. now rewrite !append_assoc. }
  destruct (JSON_parse raw) as [parsed|].
  - destruct (validate_canvas parsed) as [data warnings|error] eqn:E.
    + assert (conforms parsed = true) by (apply validate_canvas_conforms; eauto).
      congruence.
    + exists error. split; [reflexivity|]. split; [|apply Hblock].
      now apply (validate_canvas_error parsed).
  - eexists. split; [reflexivity|]. split; [discriminate | apply Hblock].
Qed.

(** C5. In a document that passes the top-level check, the first element
    of [nodes] with a defect makes [parseCanvasData] fail with the error
    of that element: the message has its index and the field that is
    missing or invalid. The elements after it have no part in the result,
    and an error carries no warnings. *)
Theorem first_invalid_node_aborts (raw : string) (parsed : json)
    (pre rest : list json) (bad : json) (d : NodeDefect) :
  JSON_parse raw = Some parsed ->
  is_object parsed = true ->
  prop parsed "nodes" = Some (JArr (pre ++ bad :: rest)) ->
  isArray (prop parsed "edges") = true ->
  Forall (fun v => node_defect v = None) pre ->
  node_defect bad = Some d ->
  parseCanvasData JSON_parse raw = ParseError (node_error (length pre) d) /\
  Str.occurs_in (Str.of_index (length pre)) (node_error (length pre) d) /\
  match defect_field d with
  | Some field => Str.occurs_in field (node_error (length pre) d)
  | None => True
  end.
Proof.
  intros Hparse Hobj Hnodes Hedges Hpre Hbad.
  split; [|apply node_error_names].
  unfold parseCanvasData, validate_canvas.
  rewrite Hparse, isRecord_object, Hobj, Hnodes, Hedges.
  cbn [negb isArray as_array].
  rewrite validate_nodes_all.
  now rewrite (validate_all_first_defect pre rest bad d 0 Hpre Hbad).
Qed.

(** C4. In the document of a successful parse every edge has its two
    ends among the ids of the nodes of the document. Every edge of the
    input is well shaped; one whose ends are both node ids is in the
    document, and one with an end that is not is left out, with a warning
    that has the id of the edge and the id that is missing. *)
Theorem output_edges_are_connected (raw : string) (data : CanvasData)
    (warnings : list CanvasParseWarning) :
  parseCanvasData JSON_parse raw = ParseSuccess data warnings ->
  (forall edge, In edge (edges data) ->
     In (edge_fromNode edge) (map node_id (nodes data)) /\
     In (edge_toNode edge) (map node_id (nodes data))) /\
  exists parsed es,
    JSON_parse raw = Some parsed /\
    validate_all validateEdge (as_array (prop parsed "edges")) 0 = inr es /\
    forall edge, In edge es ->
      match missing_end (node_ids (nodes data)) edge with
      | None => In edge (edges data)
      | Some missing =>
          ~ In missing (map node_id (nodes data)) /\
          ~ In edge (edges data) /\
          exists w, In w warnings /\
                    Str.occurs_in (Str.quoted (edge_id edge)) (message w) /\
                    Str.occurs_in (Str.quoted missing) (message w)
      end.
Proof.
  intros H. apply parseCanvasData_success in H as (parsed & Hparse & H).
  apply validate_canvas_success in H
    as (rawNodes & rawEdges & ns & es & _ & _ & He & _ & Hes & -> & ->).
  cbn [nodes edges]. split.
  - intros edge Hin. apply filter_In in Hin as [_ Hc].
    apply andb_true_iff in Hc as [Hf Ht].
    now rewrite <- !node_ids_In.
  - exists parsed, es. rewrite He. cbn [as_array].
    split; [exact Hparse|]. split; [exact Hes|].
    intros edge Hin.
    destruct (missing_end (node_ids ns) edge) as [missing|] eqn:Hm.
    + assert (Hc : connected (node_ids ns) edge = false /\
                   bool_decide (missing ∈ node_ids ns) = false).
      { revert Hm. unfold missing_end, connected.
        destruct (bool_decide (edge_fromNode edge ∈ node_ids ns)) eqn:Hf;
          cbn [negb andb].
        - destruct (bool_decide (edge_toNode edge ∈ node_ids ns)) eqn:Ht;
            cbn [negb]; [discriminate|]. intros [= <-]. now split.
        - intros [= <-]. now split. }
      destruct Hc as [Hc Hmissing]. split; [|split].
      * rewrite <- node_ids_In. congruence.
      * rewrite filter_In. intros [_ Hc']. congruence.
      * exists (dangling_warning (node_ids ns) edge). split.
        -- apply in_map, filter_In. split; [exact Hin|]. now rewrite Hc.
        -- now apply warning_names.
    + apply filter_In. split; [exact Hin|].
      revert Hm. unfold missing_end, connected.
      destruct (bool_decide (edge_fromNode edge ∈ node_ids ns)); cbn [negb];
        [|discriminate].
      now destruct (bool_decide (edge_toNode edge ∈ node_ids ns)).
Qed.

(** C10. The warnings of a successful parse are one for each edge that
    is left out, in the order of the edges. The check of [fromNode] comes
    first: an edge whose [fromNode] is no node id gets the warning about
    its [fromNode], whether its [toNode] is a node id or not, and only an
    edge whose [fromNode] is one gets the warning about its [toNode]. *)
Theorem one_warning_for_each_dropped_edge (raw : string) (data : CanvasData)
    (warnings : list CanvasParseWarning) :
  parseCanvasData JSON_parse raw = ParseSuccess data warnings ->
  exists parsed es,
    JSON_parse raw = Some parsed /\
    validate_all validateEdge (as_array (prop parsed "edges")) 0 = inr es /\
    let nodeIds := node_ids (nodes data) in
    let dropped := List.filter (fun e => negb (connected nodeIds e)) es in
    edges data = List.filter (connected nodeIds) es /\
    warnings =
      map (fun edge =>
             if bool_decide (edge_fromNode edge ∈ nodeIds)
             then toNode_warning edge else fromNode_warning edge) dropped /\
    length warnings = length dropped /\
    length es = length (edges data) + length dropped.
Proof.
  intros H. apply parseCanvasData_success in H as (parsed & Hparse & H).
  apply validate_canvas_success in H
    as (rawNodes & rawEdges & ns & es & _ & _ & He & _ & Hes & -> & ->).
  exists parsed, es. rewrite He. cbn [as_array nodes edges].
  split; [exact Hparse|]. split; [exact Hes|].
  split; [reflexivity|]. split; [reflexivity|].
  split; [apply length_map | apply filter_partition_length].
Qed.

(** C9. The document of a successful parse never gets the error block of
    [renderCanvasToHtml]: its [nodes] and [edges] are arrays, the guard
    lets it through, and the fragment begins with the [canvas-graph]
    container, which no error block does. *)
Theorem parsed_document_is_rendered (raw : string) (data : CanvasData)
    (warnings : list CanvasParseWarning) (baseUrl : string) :
  parseCanvasData JSON_parse raw = ParseSuccess data warnings ->
  let html :=
    renderCanvasToHtml JSON_stringify Number_toString (arg_of_data data)
                       baseUrl in
  (exists ns es, arg_of_data data
                 = Some {| arg_nodes := Some ns; arg_edges := Some es |}) /\
  (exists rest,
     html = ("<div id=" +:+ Str.quoted "canvas-graph" +:+
             " class=" +:+ Str.quoted "canvas-container" +:+ ">") +:+ rest) /\
  forall message, html <> renderCanvasError message.
Proof.
  intros _ html. subst html. split; [|split].
  - now exists (nodes data), (edges data).
  - eexists. cbn [renderCanvasToHtml arg_of_data]. unfold canvas_markup.
    rewrite !append_assoc. reflexivity.
  - intros message Heq. apply (f_equal (String.get 5)) in Heq.
    cbn [renderCanvasToHtml arg_of_data] in Heq.
    unfold canvas_markup, renderCanvasError in Heq.
    rewrite !append_assoc, !append_cons in Heq.
    cbn [String.get] in Heq. discriminate Heq.
Qed.

End Validation.

(** ** Runs on concrete inputs *)

Example parse_canvas_with_ghosts :
  parseCanvasData ES.JSON_parse canvas_with_ghosts =
  ParseSuccess
    {| nodes := [mkNode "a" "text" 0 0 100 50 None None None None None];
       edges := [mkEdge "e3" "a" "a" None None None None] |}
    [mkWarning (ES.js "Edge 'e1' references non-existent toNode 'ghost' — skipped");
     mkWarning (ES.js "Edge 'e2' references non-existent fromNode 'nobody' — skipped")].
Proof. vm_compute. reflexivity. Qed.

Lemma nonconforming_text_is_an_error_witness :
  exists error,
    parseCanvasData ES.JSON_parse "" = ParseError error /\
    error <> "" /\
    renderCanvasError error =
      ("<div class=" +:+ Str.quoted "canvas-error" +:+ ">" +:+
       "<p class=" +:+ Str.quoted "canvas-error-message" +:+ ">") +:+
      escapeHtml error +:+ "</p></div>".
Proof.
  apply (nonconforming_text_is_an_error ES.JSON_parse "").
  vm_compute. reflexivity.
Defined.

Lemma first_invalid_node_aborts_witness :
  parseCanvasData ES.JSON_parse canvas_with_bad_node
  = ParseError (node_error 1 (MissingNumber "height")) /\
  Str.occurs_in "1" (node_error 1 (MissingNumber "height")) /\
  Str.occurs_in "height" (node_error 1 (MissingNumber "height")).
Proof.
  apply (first_invalid_node_aborts ES.JSON_parse canvas_with_bad_node
           (JObj [("nodes",
                   JArr ([JObj [("id", JStr "a"); ("type", JStr "text");
                                ("x", JNum 0); ("y", JNum 0);
                                ("width", JNum 100); ("height", JNum 50)]]
                         ++ JObj [("id", JStr "b"); ("type", JStr "texty");
                                  ("x", JNum 0); ("y", JNum 0);
                                  ("width", JNum 100)]
                            :: [JNum 5]));
                  ("edges", JArr [])])
           [JObj [("id", JStr "a"); ("type", JStr "text");
                  ("x", JNum 0); ("y", JNum 0);
                  ("width", JNum 100); ("height", JNum 50)]]
           [JNum 5]
           (JObj [("id", JStr "b"); ("type", JStr "texty");
                  ("x", JNum 0); ("y", JNum 0); ("width", JNum 100)])
           (MissingNumber "height")).
  - vm_compute. reflexivity.
  - reflexivity.
  - reflexivity.
  - reflexivity.
  - constructor; [vm_compute; reflexivity | constructor].
  - vm_compute. reflexivity.
Defined.

Lemma output_edges_are_connected_witness :
  exists data warnings,
    parseCanvasData ES.JSON_parse canvas_with_ghosts
    = ParseSuccess data warnings /\
    forall edge, In edge (edges data) ->
      In (edge_fromNode edge) (map node_id (nodes data)) /\
      In (edge_toNode edge) (map node_id (nodes data)).
Proof.
  eexists _, _. split.
  - vm_compute. reflexivity.
  - refine (proj1 (output_edges_are_connected ES.JSON_parse
                     canvas_with_ghosts _ _ _)).
    vm_compute. reflexivity.
Defined.

Lemma one_warning_for_each_dropped_edge_witness :
  exists data warnings,
    parseCanvasData ES.JSON_parse canvas_with_ghosts
    = ParseSuccess data warnings /\
    exists parsed es,
      ES.JSON_parse canvas_with_ghosts = Some parsed /\
      validate_all validateEdge (as_array (prop parsed "edges")) 0 = inr es /\
      let nodeIds := node_ids (nodes data) in
      let dropped := List.filter (fun e => negb (connected nodeIds e)) es in
      edges data = List.filter (connected nodeIds) es /\
      warnings =
        map (fun edge =>
               if bool_decide (edge_fromNode edge ∈ nodeIds)
               then toNode_warning edge else fromNode_warning edge) dropped /\
      length warnings = length dropped /\
      length es = length (edges data) + length dropped.
Proof.
  eexists _, _. split.
  - vm_compute. reflexivity.
  - apply (one_warning_for_each_dropped_edge ES.JSON_parse canvas_with_ghosts).
    vm_compute. reflexivity.
Defined.

Lemma parsed_document_is_rendered_witness :
  exists data warnings,
    parseCanvasData ES.JSON_parse canvas_with_ghosts
    = ParseSuccess data warnings /\
    exists rest,
      renderCanvasToHtml ES.JSON_stringify ES.Number_toString
                         (arg_of_data data) "https://example.github.io/wiki"
      = ("<div id=" +:+ Str.quoted "canvas-graph" +:+
         " class=" +:+ Str.quoted "canvas-container" +:+ ">") +:+ rest.
Proof.
  eexists _, _. split.
  - vm_compute. reflexivity.
  - refine (proj1 (proj2 (parsed_document_is_rendered ES.JSON_parse
                            ES.JSON_stringify ES.Number_toString
                            canvas_with_ghosts _ _
                            "https://example.github.io/wiki" _))).
    vm_compute. reflexivity.
Defined.

(** ** The transformer *)

(** C6, as amended. [textTransform] looks at the text without the white
    space around it: when that starts with a brace and parses as JSON to
    a non-null, non-array object with arrays for [nodes] and [edges], the
    result is the rendering of the trimmed text, document or error block;
    in every other case it is the source text, unchanged. *)
Theorem textTransform_recognizes_trimmed_text
    (JSON_parse : string -> option json) (JSON_stringify : json -> string)
    (Number_toString : float -> string) (cfg_baseUrl : option string)
    (src : string) :
  textTransform JSON_parse JSON_stringify Number_toString cfg_baseUrl src =
  if Str.startsWith (Str.trim src) "{" && recognized JSON_parse (Str.trim src)
  then rendering JSON_parse JSON_stringify Number_toString cfg_baseUrl
                 (Str.trim src)
  else src.
Proof.
  unfold textTransform, recognized, rendering, canvas_shaped.
  destruct (Str.startsWith (Str.trim src) "{"); cbn [negb andb];
    [|reflexivity].
  destruct (JSON_parse (Str.trim src)) as [raw|]; [|reflexivity].
  destruct raw; cbn [typeof is_object prop isArray negb orb andb String.eqb];
    try reflexivity.
  destruct (isArray (assoc "nodes" props)); cbn [negb orb andb];
    [|reflexivity].
  destruct (isArray (assoc "edges" props)); reflexivity.
Qed.

(** C6, as stated, fails on a canvas behind a byte order mark: the text
    is not JSON, and yet it is rendered. *)
Lemma text_behind_a_byte_order_mark :
  ES.JSON_parse (BOM +:+ empty_canvas) = None /\
  recognized ES.JSON_parse (BOM +:+ empty_canvas) = false /\
  textTransform ES.JSON_parse ES.JSON_stringify ES.Number_toString None
                (BOM +:+ empty_canvas)
  = renderCanvasToHtml ES.JSON_stringify ES.Number_toString
      (arg_of_data {| nodes := []; edges := [] |}) "" /\
  textTransform ES.JSON_parse ES.JSON_stringify ES.Number_toString None
                (BOM +:+ empty_canvas)
  <> BOM +:+ empty_canvas.
Proof.
  split; [vm_compute; reflexivity|]. split; [vm_compute; reflexivity|].
  split; [vm_compute; reflexivity|]. vm_compute. discriminate.
Qed.

(** The scenarios of the specification. *)
Example hello_canvas :
  textTransform ES.JSON_parse ES.JSON_stringify ES.Number_toString None
    (ES.js ("{'nodes':[{'id':'n1','type':'text','x':0,'y':0,'width':200," +:+
            "'height':100,'text':'Hello'}],'edges':[]}")) =
  ES.js ("<div id='canvas-graph' class='canvas-container'>" +:+ Str.LF +:+
         "<div class='canvas-nodes'>" +:+ Str.LF +:+
         "<div class='canvas-node canvas-node-text' data-node-id='n1' " +:+
         "style='position:absolute;left:0px;top:0px;width:200px;height:100px;'>" +:+
         "<div class='canvas-node-content'>Hello</div></div>" +:+ Str.LF +:+
         "</div>" +:+ Str.LF +:+
         "<svg class='canvas-edges'></svg>" +:+ Str.LF +:+
         "</div>" +:+ Str.LF +:+
         "<script type='application/json' id='canvas-data'>" +:+
         "{'nodes':[{'id':'n1','type':'text','x':0,'y':0,'width':200," +:+
         "'height':100,'text':'Hello'}],'edges':[]}</script>").
Proof. vm_compute. reflexivity. Qed.

Example empty_text_is_malformed :
  parseCanvasData ES.JSON_parse "" =
  ParseError "Malformed JSON: unable to parse canvas file".
Proof. vm_compute. reflexivity. Qed.

Example empty_canvas_parses :
  parseCanvasData ES.JSON_parse empty_canvas =
  ParseSuccess {| nodes := []; edges := [] |} [].
Proof. vm_compute. reflexivity. Qed.

Example markdown_passes_through :
  textTransform ES.JSON_parse ES.JSON_stringify ES.Number_toString None
                "# Session 1" = "# Session 1".
Proof. vm_compute. reflexivity. Qed.

(** ** The embedded payload *)

(** C1 at that document. The element of the node has the text escaped;
    the payload after it has the same text as it came, with its angle
    brackets: the closing tag in it ends the payload element, and a
    script element of the input follows. *)
Theorem payload_is_not_escaped :
  textTransform ES.JSON_parse ES.JSON_stringify ES.Number_toString None
                canvas_with_script =
  ES.js ("<div id='canvas-graph' class='canvas-container'>" +:+ Str.LF +:+
         "<div class='canvas-nodes'>" +:+ Str.LF +:+
         "<div class='canvas-node canvas-node-text' data-node-id='n1' " +:+
         "style='position:absolute;left:0px;top:0px;width:200px;height:100px;'>" +:+
         "<div class='canvas-node-content'>" +:+
         "&lt;/script&gt;&lt;script&gt;alert(1)&lt;/script&gt;</div></div>" +:+
         Str.LF +:+ "</div>" +:+ Str.LF +:+
         "<svg class='canvas-edges'></svg>" +:+ Str.LF +:+
         "</div>" +:+ Str.LF +:+
         "<script type='application/json' id='canvas-data'>" +:+
         "{'nodes':[{'id':'n1','type':'text','x':0,'y':0,'width':200," +:+
         "'height':100,'text':'</script><script>alert(1)</script>'}]," +:+
         "'edges':[]}</script>").
Proof. vm_compute. reflexivity. Qed.

(** ** Serializing and parsing again *)


(** ** Escaping *)

Lemma replaceAll_append (c : ascii) (rep a b : string) :
  Str.replaceAll c rep (a +:+ b)
  = Str.replaceAll c rep a +:+ Str.replaceAll c rep b.
Proof.
  induction a as [|x a IH]; push_append; cbn [Str.replaceAll];
    [reflexivity|].
  rewrite IH. destruct (Ascii.eqb x c); push_append;
    now rewrite ?append_assoc.
Qed.

Lemma escapeHtml_append (a b : string) :
  escapeHtml (a +:+ b) = escapeHtml a +:+ escapeHtml b.
Proof. unfold escapeHtml. now rewrite !replaceAll_append. Qed.

Lemma escapeHtml_char (c : ascii) :
  escapeHtml (String c EmptyString) = escape_char c.
Proof.
  unfold escape_char.
  destruct (Ascii.eqb_spec c "&") as [->|H1]; [reflexivity|].
  destruct (Ascii.eqb_spec c "<") as [->|H2]; [reflexivity|].
  destruct (Ascii.eqb_spec c ">") as [->|H3]; [reflexivity|].
  destruct (Ascii.eqb_spec c "034") as [->|H4]; [reflexivity|].
  destruct (Ascii.eqb_spec c "'") as [->|H5]; [reflexivity|].
  apply Ascii.eqb_neq in H1, H2, H3, H4, H5.
  unfold escapeHtml. cbn [Str.replaceAll].
  rewrite H1. cbn [Str.replaceAll]. rewrite H2. cbn [Str.replaceAll].
  rewrite H3. cbn [Str.replaceAll]. rewrite H4. cbn [Str.replaceAll].
  now rewrite H5.
Qed.

(** [escapeHtml] works character by character. *)
Lemma escapeHtml_cons (c : ascii) (s : string) :
  escapeHtml (String c s) = escape_char c +:+ escapeHtml s.
Proof.
  change (String c s) with (String c EmptyString +:+ s).
  now rewrite escapeHtml_append, escapeHtml_char.
Qed.

Lemma no_markup_append (a b : string) :
  no_markup (a +:+ b) = no_markup a && no_markup b.
Proof.
  induction a as [|x a IH]; push_append; cbn [no_markup]; [reflexivity|].
  now rewrite IH, andb_assoc.
Qed.

(** An escaped string has no angle bracket and no quote. *)
Lemma escapeHtml_no_markup (s : string) : no_markup (escapeHtml s) = true.
Proof.
  induction s as [|c s IH]; [reflexivity|].
  rewrite escapeHtml_cons, no_markup_append, IH, andb_true_r.
  unfold escape_char.
  destruct (Ascii.eqb c "&"); [reflexivity|].
  destruct (Ascii.eqb c "<") eqn:H2; [reflexivity|].
  destruct (Ascii.eqb c ">") eqn:H3; [reflexivity|].
  destruct (Ascii.eqb c "034") eqn:H4; [reflexivity|].
  destruct (Ascii.eqb c "'") eqn:H5; [reflexivity|].
  cbn [no_markup]. unfold is_markup. now rewrite H2, H3, H4, H5.
Qed.

(** The escaping of the unit test. *)
Example escaped_script :
  renderCanvasError (ES.js "<script>alert('xss')</script>") =
  ES.js ("<div class='canvas-error'><p class='canvas-error-message'>" +:+
         "&lt;script&gt;alert(&quot;xss&quot;)&lt;/script&gt;</p></div>").
Proof. vm_compute. reflexivity. Qed.

(** ** The round trip of a document with plain numbers *)











(** What a successful parse leaves. *)
Lemma node_defect_typed (raw : json) :
  node_defect raw = None -> typed_node (node_of_json raw) = true.
Proof.
  unfold node_defect, typed_node, node_of_json. cbn [node_type].
  repeat match goal with
         | |- context [if negb ?b then _ else _] =>
             destruct b; cbn [negb]; try discriminate
         end.
  reflexivity.
Qed.

Lemma validate_all_typed (raws : list json) (i : nat) (ns : list CanvasNode) :
  validate_all validateNode raws i = inr ns -> forallb typed_node ns = true.
Proof.
  revert i ns. induction raws as [|raw rest IH]; intros i ns; simpl.
  - now intros [= <-].
  - rewrite validateNode_defect.
    destruct (node_defect raw) eqn:Hd; [discriminate|].
    destruct (validate_all validateNode rest (S i)) as [|ns'] eqn:E;
      [discriminate|].
    intros [= <-]. cbn [forallb].
    now rewrite (node_defect_typed raw Hd), (IH (S i) ns' E).
Qed.

Lemma optional_side_recognized (v : option json) :
  sided (optional_side v) = true.
Proof.
  unfold optional_side. destruct v as [v|]; [|reflexivity].
  destruct (String.eqb (typeof (Some v)) "string"); [|reflexivity].
  cbn [andb].
  destruct (bool_decide (as_string (Some v) ∈ VALID_SIDES)) eqn:E;
    [|reflexivity].
  cbn [sided]. now rewrite <- valid_side_recognized.
Qed.

Lemma validateEdge_sided (raw : json) (i : nat) (edge : CanvasEdge) :
  validateEdge raw i = inr edge -> sided_edge edge = true.
Proof.
  unfold validateEdge. destruct (negb (isRecord raw)); [discriminate|].
  destruct (first_not_typed _ _ _); [discriminate|]. intros [= <-].
  unfold sided_edge. cbn [edge_fromSide edge_toSide].
  now rewrite !optional_side_recognized.
Qed.

Lemma validate_all_sided (raws : list json) (i : nat) (es : list CanvasEdge) :
  validate_all validateEdge raws i = inr es -> forallb sided_edge es = true.
Proof.
  revert i es. induction raws as [|raw rest IH]; intros i es; simpl.
  - now intros [= <-].
  - destruct (validateEdge raw i) as [|edge] eqn:Hv; [discriminate|].
    destruct (validate_all validateEdge rest (S i)) as [|es'] eqn:E;
      [discriminate|].
    intros [= <-]. cbn [forallb].
    now rewrite (validateEdge_sided raw i edge Hv), (IH (S i) es' E).
Qed.



Section RoundTrip.

Variable JSON_parse : string -> option json.

Variable JSON_stringify : json -> string.


End RoundTrip.

Example parse_canvas_with_sides :
  parseCanvasData ES.JSON_parse canvas_with_sides =
  ParseSuccess
    {| nodes := [mkNode "a" "text" (-12.5) 0 100 50 (Some "Hi <b>") None None
                        None None;
                 mkNode "g" "group" 1000 0.5 2 3 None None None (Some "G")
                        (Some "#fff")];
       edges := [mkEdge "e" "a" "g" (Some "top") None (Some "go") None] |}
    [].
Proof. vm_compute. reflexivity. Qed.


(** * Further properties *)

(** ** [escapeHtml] *)

(** X1. The five replacements of [escapeHtml], made one after the other
    over the whole string, come to one pass that replaces each character
    by its entity: an ampersand that a later replacement writes is never
    escaped again. *)
Theorem escapeHtml_is_one_pass (s : string) :
  escapeHtml s = String.concat "" (map escape_char (list_ascii_of_string s)).
Proof.
  induction s as [|c s IH]; [reflexivity|].
  rewrite escapeHtml_cons, IH. cbn [list_ascii_of_string map].
  destruct (map escape_char (list_ascii_of_string s)) as [|e l] eqn:E.
  - cbn [String.concat]. now rewrite append_empty_r.
  - reflexivity.
Qed.

Lemma count_append (c : ascii) (a b : string) :
  Str.count c (a +:+ b) = Str.count c a + Str.count c b.
Proof.
  induction a as [|x a IH]; push_append; cbn [Str.count]; [reflexivity|].
  rewrite IH. lia.
Qed.

Lemma no_markup_count (c : ascii) (s : string) :
  is_markup c = true -> no_markup s = true -> Str.count c s = 0.
Proof.
  intros Hm. induction s as [|a t IH]; [reflexivity|].
  cbn [no_markup Str.count]. intros H.
  apply andb_true_iff in H as [Ha Ht]. rewrite (IH Ht).
  destruct (Ascii.eqb_spec a c) as [->|_]; [|reflexivity].
  rewrite Hm in Ha. discriminate Ha.
Qed.

Lemma count_escaped (c : ascii) (s : string) :
  is_markup c = true -> Str.count c (escapeHtml s) = 0.
Proof. intros Hm. apply no_markup_count, escapeHtml_no_markup. exact Hm. Qed.

(** X2. An escaped text has no angle bracket, no double quote and no
    single quote, whatever the text was. *)
Theorem escaped_text_has_no_markup (s : string) :
  Str.count "<" (escapeHtml s) = 0 /\ Str.count ">" (escapeHtml s) = 0 /\
  Str.count "034" (escapeHtml s) = 0 /\ Str.count "'" (escapeHtml s) = 0.
Proof. repeat split; now apply count_escaped. Qed.

Lemma prefix_nil (t : string) : String.prefix "" t = true.
Proof. now destruct t. Qed.

Lemma unescape_entity (c : ascii) (t : string) :
  unescape_from 0 (escape_char c +:+ t) = String c (unescape_from 0 t).
Proof.
  unfold escape_char.
  destruct (Ascii.eqb_spec c "&") as [->|H1];
    [push_append; cbn; now rewrite prefix_nil|].
  destruct (Ascii.eqb_spec c "<") as [->|H2];
    [push_append; cbn; now rewrite prefix_nil|].
  destruct (Ascii.eqb_spec c ">") as [->|H3];
    [push_append; cbn; now rewrite prefix_nil|].
  destruct (Ascii.eqb_spec c "034") as [->|H4];
    [push_append; cbn; now rewrite prefix_nil|].
  destruct (Ascii.eqb_spec c "'") as [->|H5];
    [push_append; cbn; now rewrite prefix_nil|].
  push_append. cbn [unescape_from String.prefix].
  destruct (Ascii.ascii_dec "&" c) as [E|_]; [congruence | reflexivity].
Qed.

(** X3. Escaping loses nothing: reading the entities back gives the text
    again, so two texts with the same escaped form are the same text. *)
Theorem escapeHtml_can_be_undone (s t : string) :
  unescapeHtml (escapeHtml s) = s /\
  (escapeHtml s = escapeHtml t -> s = t).
Proof.
  assert (H : forall u, unescapeHtml (escapeHtml u) = u).
  { unfold unescapeHtml. induction u as [|c u IH]; [reflexivity|].
    now rewrite escapeHtml_cons, unescape_entity, IH. }
  split; [apply H|].
  intros E. rewrite <- (H s), <- (H t). now rewrite E.
Qed.

(** ** The markup of the static renderer *)

Lemma count_quoted (c : ascii) (s : string) :
  Str.count c (Str.quoted s) = Str.count c Str.dq + Str.count c s
                               + Str.count c Str.dq.
Proof. unfold Str.quoted. rewrite !count_append. lia. Qed.

Lemma count_join (c : ascii) (sep : string) (l : list string) :
  Str.count c (Str.join sep l)
  = sum (map (Str.count c) l) + Str.count c sep * (length l - 1).
Proof.
  unfold Str.join. induction l as [|a l IH]; [cbn; lia|].
  destruct l as [|b l].
  - cbn. lia.
  - change (String.concat sep (a :: b :: l))
      with (a +:+ sep +:+ String.concat sep (b :: l)).
    rewrite !count_append, IH. cbn [map sum fold_right length]. lia.
Qed.

Ltac count_markup :=
  repeat first [ rewrite count_append | rewrite count_quoted
               | rewrite count_escaped by reflexivity ];
  cbn [Str.count Str.dq Ascii.eqb Bool.eqb].

Lemma renderEdge_tags (edge : CanvasEdge) :
  Str.count "<" (renderEdge edge) = 1 /\
  Str.count ">" (renderEdge edge) = 1 /\
  Str.count "'" (renderEdge edge) = 0.
Proof.
  unfold renderEdge.
  destruct (edge_label edge) as [l|]; [destruct (String.eqb l "")|];
    repeat split; count_markup; reflexivity.
Qed.

(** X4. The connector of an edge is one tag whatever the ids and the
    label of the edge contain: one opening and one closing angle bracket,
    no single quote, and the two double quotes of each of its four or
    five attributes. *)
Theorem edge_connector_is_one_tag (edge : CanvasEdge) :
  Str.count "<" (renderEdge edge) = 1 /\
  Str.count ">" (renderEdge edge) = 1 /\
  Str.count "'" (renderEdge edge) = 0 /\
  Str.count "034" (renderEdge edge)
  = match edge_label edge with
    | Some l => if String.eqb l "" then 8 else 10
    | None => 8
    end.
Proof.
  unfold renderEdge.
  destruct (edge_label edge) as [l|]; [destruct (String.eqb l "")|];
    repeat split; count_markup; reflexivity.
Qed.

Section MarkupTags.

Variable Number_toString : float -> string.
Hypothesis number_no_markup :
  forall x, no_markup (Number_toString x) = true.

Lemma count_number (c : ascii) (x : float) :
  is_markup c = true -> Str.count c (Number_toString x) = 0.
Proof. intros Hm. now apply no_markup_count. Qed.

Lemma node_open_tags (class : string) (node : CanvasNode) :
  no_markup class = true ->
  Str.count "<" (node_open Number_toString class node) = 1 /\
  Str.count ">" (node_open Number_toString class node) = 1 /\
  Str.count "'" (node_open Number_toString class node) = 0.
Proof.
  intros Hc. unfold node_open.
  repeat split; count_markup;
    rewrite ?count_number, ?(no_markup_count _ class) by (reflexivity || exact Hc);
    reflexivity.
Qed.

Lemma renderNode_tags (node : CanvasNode) (baseUrl : string) :
  Str.count "<" (renderNode Number_toString node baseUrl) = node_tags node /\
  Str.count ">" (renderNode Number_toString node baseUrl) = node_tags node /\
  Str.count "'" (renderNode Number_toString node baseUrl) = 0.
Proof.
  assert (He : forall c v, is_markup c = true ->
                           Str.count c (escaped_or_empty v) = 0).
  { intros c [s|] Hm; [|reflexivity]. cbn [escaped_or_empty].
    destruct (String.eqb s ""); [reflexivity | now apply count_escaped]. }
  unfold renderNode, node_tags,
    renderTextNode, renderFileNode, renderGroupNode, renderLinkNode.
  destruct (String.eqb (node_type node) "text") eqn:Et.
  { apply String.eqb_eq in Et. rewrite Et. cbn [String.eqb Ascii.eqb Bool.eqb].
    destruct (node_open_tags "text" node eq_refl) as (H1 & H2 & H3).
    repeat split; count_markup; rewrite ?H1, ?H2, ?H3, ?He by reflexivity;
      reflexivity. }
  destruct (String.eqb (node_type node) "file") eqn:Ef.
  { apply String.eqb_eq in Ef. rewrite Ef. cbn [String.eqb Ascii.eqb Bool.eqb].
    destruct (node_open_tags "file" node eq_refl) as (H1 & H2 & H3).
    repeat split; count_markup; rewrite ?H1, ?H2, ?H3; reflexivity. }
  destruct (String.eqb (node_type node) "group") eqn:Eg.
  { destruct (node_open_tags "group" node eq_refl) as (H1 & H2 & H3).
    repeat split; count_markup; rewrite ?H1, ?H2, ?H3, ?He by reflexivity;
      reflexivity. }
  destruct (String.eqb (node_type node) "link") eqn:El.
  { destruct (node_open_tags "link" node eq_refl) as (H1 & H2 & H3).
    repeat split; count_markup; rewrite ?H1, ?H2, ?H3; reflexivity. }
  destruct (node_open_tags "text" node eq_refl) as (H1 & H2 & H3).
  repeat split; count_markup; rewrite ?H1, ?H2, ?H3, ?He by reflexivity;
    reflexivity.
Qed.

Lemma sum_map_const {A : Type} (f : A -> nat) (k : nat) (l : list A) :
  (forall a, f a = k) -> sum (map f l) = k * length l.
Proof.
  intros H. induction l as [|a l IH]; cbn [map sum fold_right length];
    [lia|]. fold (sum (map f l)). rewrite IH, H. lia.
Qed.

(** X5. The markup of the fragment, before the payload, has the tags of
    its template and no other: six for the containers, four or six for
    each node, one for each edge, whatever the ids, texts, labels, paths
    and URLs contain; and it has no single quote at all. This holds on a
    runtime that prints numbers without those characters. *)
Theorem markup_has_the_tags_of_its_template (ns : list CanvasNode)
    (es : list CanvasEdge) (baseUrl : string) :
  let markup := canvas_markup Number_toString ns es baseUrl in
  Str.count "<" markup = 6 + sum (map node_tags ns) + length es /\
  Str.count ">" markup = 6 + sum (map node_tags ns) + length es /\
  Str.count "'" markup = 0.
Proof.
  cbv zeta. unfold canvas_markup.
  assert (Hn : forall c k,
             (forall node, Str.count c (renderNode Number_toString node baseUrl)
                           = k node) ->
             Str.count c Str.LF = 0 ->
             Str.count c (Str.join Str.LF
                (map (fun node => renderNode Number_toString node baseUrl) ns))
             = sum (map k ns)).
  { intros c k Hk Hlf. rewrite count_join, Hlf, map_map, Nat.mul_0_l, Nat.add_0_r.
    f_equal. apply map_ext. exact Hk. }
  assert (Hedges : forall c k,
             (forall edge, Str.count c (renderEdge edge) = k) ->
             Str.count c Str.LF = 0 ->
             Str.count c (Str.join Str.LF (map (fun edge => renderEdge edge) es))
             = k * length es).
  { intros c k Hk Hlf. rewrite count_join, Hlf, map_map, Nat.mul_0_l, Nat.add_0_r.
    now apply sum_map_const. }
  assert (Hzero : sum (map (fun _ : CanvasNode => 0) ns) = 0).
  { now rewrite (sum_map_const (fun _ => 0) 0). }
  assert (Hif : forall c (b : bool) x y,
             Str.count c (if b then x else y)
             = if b then Str.count c x else Str.count c y).
  { now intros c []. }
  pose proof (fun node => proj1 (renderNode_tags node baseUrl)) as Hlt.
  pose proof (fun node => proj1 (proj2 (renderNode_tags node baseUrl))) as Hgt.
  pose proof (fun node => proj2 (proj2 (renderNode_tags node baseUrl))) as Hq.
  pose proof (fun edge => proj1 (renderEdge_tags edge)) as Helt.
  pose proof (fun edge => proj1 (proj2 (renderEdge_tags edge))) as Hegt.
  pose proof (fun edge => proj2 (proj2 (renderEdge_tags edge))) as Heq.
  repeat split;
    repeat first [rewrite count_append | rewrite count_quoted | rewrite Hif];
    [ rewrite (Hn "<"%char node_tags Hlt eq_refl),
        (Hedges "<"%char 1 Helt eq_refl)
    | rewrite (Hn ">"%char node_tags Hgt eq_refl),
        (Hedges ">"%char 1 Hegt eq_refl)
    | rewrite (Hn "'"%char (fun _ => 0) Hq eq_refl), Hzero,
        (Hedges "'"%char 0 Heq eq_refl) ];
    cbn [Str.count Str.dq Str.LF Ascii.eqb Bool.eqb];
    destruct es as [|edge es']; cbn [length Nat.ltb Nat.leb]; lia.
Qed.

End MarkupTags.

(** The numbers of the reference runtime have digits, a point, a sign, an
    exponent mark or the letters of [NaN] and [Infinity]. *)
Lemma string_of_uint_no_markup (d : Decimal.uint) :
  no_markup (NilEmpty.string_of_uint d) = true.
Proof. induction d; cbn [NilEmpty.string_of_uint no_markup]; auto. Qed.

Lemma digits_no_markup (z : Z) : no_markup (ES.digits z) = true.
Proof.
  unfold ES.digits, NilZero.string_of_uint.
  destruct (N.to_uint (Z.to_N z)); try reflexivity;
    apply (string_of_uint_no_markup (_ _)).
Qed.

Lemma zeros_no_markup (n : nat) : no_markup (ES.zeros n) = true.
Proof. induction n; cbn [ES.zeros no_markup]; auto. Qed.

Lemma substring_no_markup (s : string) (n m : nat) :
  no_markup s = true -> no_markup (String.substring n m s) = true.
Proof.
  revert n m. induction s as [|a s IH]; intros n m H.
  - now destruct n, m.
  - cbn [no_markup] in H. apply andb_true_iff in H as [Ha Hs].
    destruct n as [|n]; cbn [String.substring].
    + destruct m as [|m]; [reflexivity|]. cbn [no_markup]. now rewrite Ha, IH.
    + now apply IH.
Qed.

Lemma ES_number_no_markup (x : float) :
  no_markup (ES.Number_toString x) = true.
Proof.
  unfold ES.Number_toString.
  destruct (Prim2SF x) as [s| s| |s m e]; try reflexivity;
    [now destruct s|].
  destruct (if (0 <=? e)%Z then _ else _) as [num den].
  destruct (ES.shortest _ _ _ _ _ _) as [[n k] d].
  assert (Hbody : forall body, no_markup body = true ->
                    no_markup (if s then "-" +:+ body else body) = true).
  { intros body Hb. destruct s; [|exact Hb].
    now rewrite no_markup_append, Hb. }
  apply Hbody.
  repeat match goal with
         | |- context [if ?b then _ else _] => destruct b
         end;
    rewrite ?no_markup_append, ?digits_no_markup, ?zeros_no_markup,
      ?substring_no_markup by apply digits_no_markup;
    reflexivity.
Qed.

Lemma markup_has_the_tags_of_its_template_witness :
  Str.count "<" (canvas_markup ES.Number_toString five_nodes two_edges
                   "https://example.github.io/wiki/")
  = 6 + sum (map node_tags five_nodes) + length two_edges /\
  Str.count ">" (canvas_markup ES.Number_toString five_nodes two_edges
                   "https://example.github.io/wiki/")
  = 6 + sum (map node_tags five_nodes) + length two_edges /\
  Str.count "'" (canvas_markup ES.Number_toString five_nodes two_edges
                   "https://example.github.io/wiki/") = 0.
Proof.
  exact (markup_has_the_tags_of_its_template ES.Number_toString
           ES_number_no_markup five_nodes two_edges
           "https://example.github.io/wiki/").
Defined.

Example markup_of_five_nodes_has_30_tags :
  Str.count "<" (canvas_markup ES.Number_toString five_nodes two_edges "") = 30.
Proof. vm_compute. reflexivity. Qed.

Lemma occurs_in_refl (s : string) : Str.occurs_in s s.
Proof. exists "", "". now rewrite append_empty_r. Qed.

Lemma occurs_in_start (s b : string) : Str.occurs_in s (s +:+ b).
Proof. now exists "", b. Qed.

Lemma occurs_in_trans (a b c : string) :
  Str.occurs_in a b -> Str.occurs_in b c -> Str.occurs_in a c.
Proof.
  intros (p & q & ->) (p' & q' & ->). exists (p' +:+ p), (q +:+ q').
  now rewrite !append_assoc.
Qed.

Lemma occurs_in_append_right (t b s : string) :
  Str.occurs_in s t -> Str.occurs_in s (t +:+ b).
Proof.
  intros (pre & post & ->). exists pre, (post +:+ b).
  now rewrite !append_assoc.
Qed.

Lemma occurs_in_join {A : Type} (f : A -> string) (sep : string) (a : A)
    (l : list A) :
  In a l -> Str.occurs_in (f a) (Str.join sep (map f l)).
Proof.
  unfold Str.join. induction l as [|b l IH]; [intros []|].
  intros [->|Hin].
  - destruct l as [|b' l]; [apply occurs_in_refl|].
    cbn [map String.concat]. apply occurs_in_start.
  - destruct l as [|b' l]; [destruct Hin|].
    change (String.concat sep (map f (b :: b' :: l)))
      with (f b +:+ sep +:+ String.concat sep (map f (b' :: l))).
    do 2 apply occurs_in_append_l. now apply IH.
Qed.

Section Completeness.

Variable JSON_stringify : json -> string.
Variable Number_toString : float -> string.

Lemma renderNode_has_id (node : CanvasNode) (baseUrl : string) :
  Str.occurs_in ("data-node-id=" +:+ Str.quoted (escapeHtml (node_id node)))
                (renderNode Number_toString node baseUrl).
Proof.
  assert (H : forall class rest,
             Str.occurs_in
               ("data-node-id=" +:+ Str.quoted (escapeHtml (node_id node)))
               (node_open Number_toString class node +:+ rest)).
  { intros class rest. apply occurs_in_append_right. unfold node_open.
    do 2 apply occurs_in_append_l.
    exists " ", (" " +:+ "style=" +:+ Str.quoted
                   ("position:absolute;left:" +:+ Number_toString (node_x node) +:+
                    "px;top:" +:+ Number_toString (node_y node) +:+
                    "px;width:" +:+ Number_toString (node_width node) +:+
                    "px;height:" +:+ Number_toString (node_height node) +:+
                    "px;") +:+ ">").
    rewrite !append_assoc. reflexivity. }
  unfold renderNode, renderTextNode, renderFileNode, renderGroupNode,
    renderLinkNode.
  repeat match goal with
         | |- context [if ?b then _ else _] => destruct b
         end; apply H.
Qed.

(** X6. Every node of the document has its element in the fragment: the
    attribute [data-node-id] with the escaped id of the node is in it. *)
Theorem every_node_has_its_element (ns : list CanvasNode)
    (es : list CanvasEdge) (baseUrl : string) (node : CanvasNode) :
  In node ns ->
  Str.occurs_in
    ("data-node-id=" +:+ Str.quoted (escapeHtml (node_id node)))
    (renderCanvasToHtml JSON_stringify Number_toString
       (arg_of_data {| nodes := ns; edges := es |}) baseUrl).
Proof.
  intros Hin. eapply occurs_in_trans; [apply renderNode_has_id|].
  eapply occurs_in_trans;
    [apply (occurs_in_join
              (fun node => renderNode Number_toString node baseUrl)
              Str.LF node ns Hin)|].
  cbn [renderCanvasToHtml arg_of_data nodes edges].
  apply occurs_in_append_right. unfold canvas_markup.
  do 10 apply occurs_in_append_l. apply occurs_in_start.
Qed.

Lemma renderEdge_has_attributes (edge : CanvasEdge) :
  Str.occurs_in (edge_attributes edge) (renderEdge edge).
Proof.
  unfold renderEdge, edge_attributes.
  exists "", ((match edge_label edge with
               | Some l =>
                   if String.eqb l "" then ""
                   else " data-edge-label=" +:+ Str.quoted (escapeHtml l)
               | None => ""
               end) +:+ " />").
  unfold Str.quoted. rewrite !append_assoc. reflexivity.
Qed.

(** X7. Every edge of the document has its connector in the fragment: a
    [line] tag with the escaped id of the edge and the escaped ids of its
    two ends, in that order. *)
Theorem every_edge_has_its_connector (ns : list CanvasNode)
    (es : list CanvasEdge) (baseUrl : string) (edge : CanvasEdge) :
  In edge es ->
  Str.occurs_in
    (edge_attributes edge)
    (renderCanvasToHtml JSON_stringify Number_toString
       (arg_of_data {| nodes := ns; edges := es |}) baseUrl).
Proof.
  intros Hin. eapply occurs_in_trans; [apply renderEdge_has_attributes|].
  eapply occurs_in_trans;
    [apply (occurs_in_join (fun edge => renderEdge edge) Str.LF edge es Hin)|].
  cbn [renderCanvasToHtml arg_of_data nodes edges].
  apply occurs_in_append_right. unfold canvas_markup.
  destruct es as [|e es']; [destruct Hin|]. cbn [length Nat.ltb Nat.leb].
  do 14 apply occurs_in_append_l. apply occurs_in_append_right.
  do 4 apply occurs_in_append_l. apply occurs_in_start.
Qed.

End Completeness.

Lemma every_node_has_its_element_witness :
  In (mkNode "g" "group" (-20) (-20) 400 300 None None None (Some "G & H") None)
     five_nodes /\
  Str.occurs_in
    ("data-node-id=" +:+ Str.quoted "g")
    (renderCanvasToHtml ES.JSON_stringify ES.Number_toString
       (arg_of_data {| nodes := five_nodes; edges := two_edges |}) "").
Proof.
  assert (Hin : In (mkNode "g" "group" (-20) (-20) 400 300 None None None
                           (Some "G & H") None) five_nodes).
  { right. right. left. reflexivity. }
  split; [exact Hin|].
  exact (every_node_has_its_element ES.JSON_stringify ES.Number_toString
           five_nodes two_edges "" _ Hin).
Defined.

Lemma every_edge_has_its_connector_witness :
  In (mkEdge "e2" "f" "l" (Some "top") None None None) two_edges /\
  Str.occurs_in
    (edge_attributes (mkEdge "e2" "f" "l" (Some "top") None None None))
    (renderCanvasToHtml ES.JSON_stringify ES.Number_toString
       (arg_of_data {| nodes := five_nodes; edges := two_edges |}) "").
Proof.
  assert (Hin : In (mkEdge "e2" "f" "l" (Some "top") None None None)
                   two_edges).
  { right. left. reflexivity. }
  split; [exact Hin|].
  exact (every_edge_has_its_connector ES.JSON_stringify ES.Number_toString
           five_nodes two_edges "" _ Hin).
Defined.

(** ** More of the validator *)

Lemma validateEdge_defect (raw : json) (index : nat) :
  match edge_defect raw with
  | Some d => validateEdge raw index = inl (edge_error index d)
  | None => exists edge, validateEdge raw index = inr edge
  end.
Proof.
  unfold validateEdge, edge_defect, first_not_typed, edge_error.
  rewrite isRecord_object. destruct (is_object raw); [|reflexivity].
  cbn [List.find negb]. rewrite !typeof_string.
  destruct (is_string (prop raw "id")); [|reflexivity].
  destruct (is_string (prop raw "fromNode")); [|reflexivity].
  destruct (is_string (prop raw "toNode")); [|reflexivity].
  cbn [negb]. eauto.
Qed.

Lemma validate_all_first_edge_defect (pre rest : list json) (bad : json)
    (d : EdgeDefect) (i : nat) :
  Forall (fun v => edge_defect v = None) pre ->
  edge_defect bad = Some d ->
  validate_all validateEdge (pre ++ bad :: rest) i
  = inl (edge_error (i + length pre) d).
Proof.
  intros Hpre Hbad. revert i.
  induction Hpre as [|v pre Hv _ IH]; intros i; simpl.
  - pose proof (validateEdge_defect bad i) as H. rewrite Hbad in H.
    now rewrite H, Nat.add_0_r.
  - pose proof (validateEdge_defect v i) as H. rewrite Hv in H.
    destruct H as [edge ->]. rewrite IH. f_equal. f_equal. lia.
Qed.

Lemma validate_all_nodes_map (raws : list json) (i : nat)
    (ns : list CanvasNode) :
  validate_all validateNode raws i = inr ns -> ns = map node_of_json raws.
Proof.
  revert i ns. induction raws as [|raw rest IH]; intros i ns; simpl.
  - now intros [= <-].
  - rewrite validateNode_defect. destruct (node_defect raw); [discriminate|].
    destruct (validate_all validateNode rest (S i)) as [|ns'] eqn:E;
      [discriminate|].
    intros [= <-]. f_equal. eauto.
Qed.

Lemma validate_all_inl_inv {A : Type} (validate : json -> nat -> string + A)
    (raws : list json) (i : nat) (error : string) :
  validate_all validate raws i = inl error ->
  exists j raw, nth_error raws j = Some raw /\
                validate raw (i + j) = inl error /\
                forall k raw', k < j -> nth_error raws k = Some raw' ->
                               exists a, validate raw' (i + k) = inr a.
Proof.
  revert i. induction raws as [|raw rest IH]; intros i; simpl; [discriminate|].
  destruct (validate raw i) as [e|a] eqn:E.
  - intros [= <-]. exists 0, raw. rewrite Nat.add_0_r.
    split; [reflexivity|]. split; [exact E|]. intros k raw' Hk. lia.
  - destruct (validate_all validate rest (S i)) as [e|l] eqn:E';
      [|discriminate].
    intros [= <-]. destruct (IH (S i) E') as (j & raw' & Hn & Hv & Hbefore).
    exists (S j), raw'. split; [exact Hn|].
    split; [now replace (i + S j) with (S i + j) by lia|].
    intros [|k] raw'' Hk Hnth.
    + cbn in Hnth. injection Hnth as <-. rewrite Nat.add_0_r. eauto.
    + replace (i + S k) with (S i + k) by lia.
      apply (Hbefore k raw''); [lia | exact Hnth].
Qed.

Section MoreValidation.

Variable JSON_parse : string -> option json.

(** X8. In a document whose nodes are all well shaped, the first element
    of [edges] with a defect makes [parseCanvasData] fail with the error
    of that element, which has its index and the field that is missing.
    The edges before it may dangle: their warnings are lost with the
    document, and the elements after it have no part in the result. *)
Theorem first_invalid_edge_aborts (raw : string) (parsed : json)
    (rawNodes pre rest : list json) (bad : json) (d : EdgeDefect) :
  JSON_parse raw = Some parsed ->
  is_object parsed = true ->
  prop parsed "nodes" = Some (JArr rawNodes) ->
  prop parsed "edges" = Some (JArr (pre ++ bad :: rest)) ->
  Forall (fun v => node_defect v = None) rawNodes ->
  Forall (fun v => edge_defect v = None) pre ->
  edge_defect bad = Some d ->
  parseCanvasData JSON_parse raw = ParseError (edge_error (length pre) d) /\
  Str.occurs_in (Str.of_index (length pre)) (edge_error (length pre) d) /\
  match d with
  | EdgeMissingString field =>
      Str.occurs_in (Str.quoted field) (edge_error (length pre) d)
  | EdgeNotAnObject => True
  end.
Proof.
  intros Hparse Hobj Hnodes Hedges Hns Hpre Hbad. split.
  - unfold parseCanvasData, validate_canvas.
    rewrite Hparse, isRecord_object, Hobj, Hnodes, Hedges.
    cbn [negb isArray as_array]. rewrite validate_nodes_all.
    destruct (validate_all_nodes_ok rawNodes 0) as [ns ->].
    { apply forallb_forall. intros v Hv. rewrite List.Forall_forall in Hns.
      now rewrite (Hns v Hv). }
    rewrite validate_edges_all.
    now rewrite (validate_all_first_edge_defect pre rest bad d 0 Hpre Hbad).
  - split; [apply occurs_in_middle|]. unfold edge_error.
    destruct d as [|field]; [exact I|].
    do 2 apply occurs_in_append_l.
    exists " is missing required string field ", "".
    now rewrite append_empty_r.
Qed.

(** X9. The errors of [parseCanvasData] are the four messages about the
    whole value, the error of a node that has a defect, or the error of
    an edge that has one, each with the index of the element; there is no
    other. *)
Theorem errors_of_parseCanvasData (raw error : string) :
  parseCanvasData JSON_parse raw = ParseError error ->
  In error schema_errors \/
  (exists parsed i bad d,
      JSON_parse raw = Some parsed /\
      nth_error (as_array (prop parsed "nodes")) i = Some bad /\
      node_defect bad = Some d /\ error = node_error i d) \/
  (exists parsed i bad d,
      JSON_parse raw = Some parsed /\
      nth_error (as_array (prop parsed "edges")) i = Some bad /\
      edge_defect bad = Some d /\ error = edge_error i d).
Proof.
  unfold parseCanvasData, validate_canvas, schema_errors.
  destruct (JSON_parse raw) as [parsed|]; [|intros [= <-]; left; cbn; tauto].
  destruct (isRecord parsed); cbn [negb]; [|intros [= <-]; left; cbn; tauto].
  destruct (isArray (prop parsed "nodes")); cbn [negb];
    [|intros [= <-]; left; cbn; tauto].
  destruct (isArray (prop parsed "edges")); cbn [negb];
    [|intros [= <-]; left; cbn; tauto].
  rewrite validate_nodes_all.
  destruct (validate_all validateNode _ 0) as [e|ns] eqn:Hns.
  - intros [= <-]. right. left.
    apply validate_all_inl_inv in Hns as (i & bad & Hnth & Hv & _).
    cbn [Nat.add] in Hv. rewrite validateNode_defect in Hv.
    destruct (node_defect bad) as [d|] eqn:Hd; [|discriminate].
    injection Hv as <-. exists parsed, i, bad, d. auto.
  - rewrite validate_edges_all.
    destruct (validate_all validateEdge _ 0) as [e|es] eqn:Hes; [|discriminate].
    intros [= <-]. right. right.
    apply validate_all_inl_inv in Hes as (i & bad & Hnth & Hv & _).
    cbn [Nat.add] in Hv. pose proof (validateEdge_defect bad i) as H.
    destruct (edge_defect bad) as [d|] eqn:Hd.
    + rewrite H in Hv. injection Hv as <-. exists parsed, i, bad, d. auto.
    + destruct H as [edge H]. congruence.
Qed.

(** X10. A successful parse keeps every node: the nodes of the document
    are the elements of [nodes], each with the fields it has, as many and
    in the same order; two nodes with the same id are both kept. *)
Theorem parse_keeps_every_node (raw : string) (data : CanvasData)
    (warnings : list CanvasParseWarning) :
  parseCanvasData JSON_parse raw = ParseSuccess data warnings ->
  exists parsed,
    JSON_parse raw = Some parsed /\
    nodes data = map node_of_json (as_array (prop parsed "nodes")) /\
    length (nodes data) = length (as_array (prop parsed "nodes")).
Proof.
  intros H. apply parseCanvasData_success in H as (parsed & Hparse & H).
  apply validate_canvas_success in H
    as (rawNodes & rawEdges & ns & es & _ & Hn & _ & Hns & _ & -> & _).
  exists parsed. rewrite Hn. cbn [as_array nodes].
  apply validate_all_nodes_map in Hns as ->.
  split; [exact Hparse|]. split; [reflexivity | apply length_map].
Qed.

(** X11. In the document of a successful parse every node has one of the
    four types, and every side of an edge that is there is one of the
    four sides. *)
Theorem parsed_types_and_sides_are_recognized (raw : string)
    (data : CanvasData) (warnings : list CanvasParseWarning) :
  parseCanvasData JSON_parse raw = ParseSuccess data warnings ->
  (forall node, In node (nodes data) ->
     In (node_type node) ["text"; "file"; "link"; "group"]) /\
  (forall edge side, In edge (edges data) ->
     edge_fromSide edge = Some side \/ edge_toSide edge = Some side ->
     In side ["top"; "right"; "bottom"; "left"]).
Proof.
  intros H. apply parseCanvasData_success in H as (parsed & Hparse & H).
  apply validate_canvas_success in H
    as (rawNodes & rawEdges & ns & es & _ & _ & _ & Hns & Hes & -> & _).
  cbn [nodes edges].
  assert (Hin : forall l s, existsb (String.eqb s) l = true -> In s l).
  { intros l s Hs. apply existsb_exists in Hs as (x & Hx & Heq).
    apply String.eqb_eq in Heq. now subst. }
  split.
  - intros node Hnode. apply Hin.
    pose proof (validate_all_typed rawNodes 0 ns Hns) as Ht.
    rewrite forallb_forall in Ht. exact (Ht node Hnode).
  - intros edge side Hedge Hside. apply Hin.
    apply filter_In in Hedge as [Hedge _].
    pose proof (validate_all_sided rawEdges 0 es Hes) as Ht.
    rewrite forallb_forall in Ht. specialize (Ht edge Hedge).
    unfold sided_edge in Ht. apply andb_true_iff in Ht as [Hf Ht].
    destruct Hside as [E|E]; rewrite E in *; assumption.
Qed.

(** X12. A text that conforms to the schema is always accepted: an edge
    that refers to a node that is not there costs the edge, never the
    document. *)
Theorem conforming_text_is_accepted (raw : string) :
  conforming JSON_parse raw = true ->
  exists data warnings,
    parseCanvasData JSON_parse raw = ParseSuccess data warnings.
Proof.
  unfold conforming, parseCanvasData.
  destruct (JSON_parse raw) as [parsed|]; [|discriminate].
  apply validate_canvas_conforms.
Qed.

End MoreValidation.

Lemma assoc_other (k k' : string) (v : json) (pre post : list (string * json)) :
  k' <> k -> assoc k' (pre ++ (k, v) :: post) = assoc k' (pre ++ post).
Proof.
  intros Hk. induction pre as [|[a b] pre IH]; cbn [app assoc].
  - destruct (String.eqb_spec k' k); [contradiction | reflexivity].
  - now rewrite IH.
Qed.

Lemma prop_other (k : string) (v : json) (pre post : list (string * json))
    (fields : list string) (f : string) :
  ~ In k fields -> In f fields ->
  prop (JObj (pre ++ (k, v) :: post)) f = prop (JObj (pre ++ post)) f.
Proof.
  intros Hk Hf. apply assoc_other. intros ->. contradiction.
Qed.

(** X13. A property that the validator does not read makes no
    difference: a node, an edge and a document with one more property of
    another name are validated as without it. *)
Theorem unread_properties_are_ignored (k : string) (v : json)
    (pre post : list (string * json)) (index : nat) :
  (~ In k node_fields ->
   validateNode (JObj (pre ++ (k, v) :: post)) index
   = validateNode (JObj (pre ++ post)) index) /\
  (~ In k edge_fields ->
   validateEdge (JObj (pre ++ (k, v) :: post)) index
   = validateEdge (JObj (pre ++ post)) index) /\
  (~ In k document_fields ->
   validate_canvas (JObj (pre ++ (k, v) :: post))
   = validate_canvas (JObj (pre ++ post))).
Proof.
  split; [|split]; intros Hk.
  - unfold validateNode, first_not_typed, isRecord.
    cbn [typeof isArray List.find].
    rewrite !(prop_other k v pre post node_fields) by (exact Hk || cbn; tauto).
    reflexivity.
  - unfold validateEdge, first_not_typed, isRecord.
    cbn [typeof isArray List.find].
    rewrite !(prop_other k v pre post edge_fields) by (exact Hk || cbn; tauto).
    reflexivity.
  - unfold validate_canvas, isRecord. cbn [typeof isArray].
    rewrite !(prop_other k v pre post document_fields)
      by (exact Hk || cbn; tauto).
    reflexivity.
Qed.

Lemma first_invalid_edge_aborts_witness :
  parseCanvasData ES.JSON_parse canvas_with_bad_edge
  = ParseError (edge_error 1 (EdgeMissingString "toNode")) /\
  Str.occurs_in "1" (edge_error 1 (EdgeMissingString "toNode")) /\
  Str.occurs_in (Str.quoted "toNode")
                (edge_error 1 (EdgeMissingString "toNode")).
Proof.
  apply (first_invalid_edge_aborts ES.JSON_parse canvas_with_bad_edge
           (JObj [("nodes",
                   JArr [JObj [("id", JStr "a"); ("type", JStr "text");
                               ("x", JNum 0); ("y", JNum 0);
                               ("width", JNum 100); ("height", JNum 50)]]);
                  ("edges",
                   JArr ([JObj [("id", JStr "e1"); ("fromNode", JStr "a");
                                ("toNode", JStr "ghost")]]
                         ++ JObj [("id", JStr "e2"); ("fromNode", JStr "a")]
                            :: [JNum 7]))])
           [JObj [("id", JStr "a"); ("type", JStr "text");
                  ("x", JNum 0); ("y", JNum 0);
                  ("width", JNum 100); ("height", JNum 50)]]
           [JObj [("id", JStr "e1"); ("fromNode", JStr "a");
                  ("toNode", JStr "ghost")]]
           [JNum 7]
           (JObj [("id", JStr "e2"); ("fromNode", JStr "a")])
           (EdgeMissingString "toNode")).
  - vm_compute. reflexivity.
  - reflexivity.
  - reflexivity.
  - reflexivity.
  - constructor; [vm_compute; reflexivity | constructor].
  - constructor; [vm_compute; reflexivity | constructor].
  - vm_compute. reflexivity.
Defined.

Lemma errors_of_parseCanvasData_witness :
  In (edge_error 1 (EdgeMissingString "toNode")) schema_errors \/
  (exists parsed i bad d,
      ES.JSON_parse canvas_with_bad_edge = Some parsed /\
      nth_error (as_array (prop parsed "nodes")) i = Some bad /\
      node_defect bad = Some d /\
      edge_error 1 (EdgeMissingString "toNode") = node_error i d) \/
  (exists parsed i bad d,
      ES.JSON_parse canvas_with_bad_edge = Some parsed /\
      nth_error (as_array (prop parsed "edges")) i = Some bad /\
      edge_defect bad = Some d /\
      edge_error 1 (EdgeMissingString "toNode") = edge_error i d).
Proof.
  apply (errors_of_parseCanvasData ES.JSON_parse canvas_with_bad_edge).
  vm_compute. reflexivity.
Defined.

Lemma parse_keeps_every_node_witness :
  exists data warnings,
    parseCanvasData ES.JSON_parse canvas_with_ghosts
    = ParseSuccess data warnings /\
    exists parsed,
      ES.JSON_parse canvas_with_ghosts = Some parsed /\
      nodes data = map node_of_json (as_array (prop parsed "nodes")) /\
      length (nodes data) = length (as_array (prop parsed "nodes")).
Proof.
  eexists _, _. split.
  - vm_compute. reflexivity.
  - refine (parse_keeps_every_node ES.JSON_parse canvas_with_ghosts _ _ _).
    vm_compute. reflexivity.
Defined.

Lemma parsed_types_and_sides_are_recognized_witness :
  exists data warnings,
    parseCanvasData ES.JSON_parse canvas_with_sides
    = ParseSuccess data warnings /\
    (forall node, In node (nodes data) ->
       In (node_type node) ["text"; "file"; "link"; "group"]) /\
    (forall edge side, In edge (edges data) ->
       edge_fromSide edge = Some side \/ edge_toSide edge = Some side ->
       In side ["top"; "right"; "bottom"; "left"]).
Proof.
  eexists _, _. split.
  - vm_compute. reflexivity.
  - refine (parsed_types_and_sides_are_recognized ES.JSON_parse
              canvas_with_sides _ _ _).
    vm_compute. reflexivity.
Defined.

Lemma conforming_text_is_accepted_witness :
  conforming ES.JSON_parse canvas_with_ghosts = true /\
  exists data warnings,
    parseCanvasData ES.JSON_parse canvas_with_ghosts
    = ParseSuccess data warnings.
Proof.
  assert (H : conforming ES.JSON_parse canvas_with_ghosts = true).
  { vm_compute. reflexivity. }
  split; [exact H|].
  exact (conforming_text_is_accepted ES.JSON_parse canvas_with_ghosts H).
Defined.

(** ** More of the transformer *)

(** A text that starts with an angle bracket is not white space at its
    start, and trimmed it starts with the angle bracket still. *)
Lemma trim_markup (r : string) :
  exists r', Str.trim (String "<" r) = String "<" r'.
Proof.
  assert (Hs : Str.trimStart (String "<" r) = String "<" r).
  { unfold Str.trimStart. cbn [String.length Str.trim_start].
    destruct r as [|c1 [|c2 r2]]; reflexivity. }
  unfold Str.trim. rewrite Hs. cbn [Str.trimEnd]. rewrite Hs.
  cbn [String.eqb]. eauto.
Qed.

Section MoreTransformer.

Variable JSON_parse : string -> option json.
Variable JSON_stringify : json -> string.
Variable Number_toString : float -> string.

Lemma textTransform_of_markup (cfg_baseUrl : option string) (r : string) :
  textTransform JSON_parse JSON_stringify Number_toString cfg_baseUrl
                (String "<" r) = String "<" r.
Proof.
  unfold textTransform. destruct (trim_markup r) as [r' ->]. reflexivity.
Qed.

Lemma textTransform_cases (cfg_baseUrl : option string) (src : string) :
  textTransform JSON_parse JSON_stringify Number_toString cfg_baseUrl src = src
  \/ exists r,
      textTransform JSON_parse JSON_stringify Number_toString cfg_baseUrl src
      = String "<" r.
Proof.
  unfold textTransform.
  destruct (negb (Str.startsWith (Str.trim src) "{")); [now left|].
  destruct (JSON_parse (Str.trim src)) as [raw|]; [|now left].
  destruct (_ || _); [now left|]. right.
  destruct (parseCanvasData JSON_parse (Str.trim src)) as [data ws|error].
  - unfold renderCanvasToHtml, arg_of_data, canvas_markup.
    push_append. eauto.
  - unfold renderCanvasError. push_append. eauto.
Qed.

(** X14. [textTransform] does nothing to its own output: a rendered
    fragment and an error block start with an angle bracket, so they are
    never taken for a canvas again. *)
Theorem textTransform_is_idempotent (cfg_baseUrl : option string)
    (src : string) :
  let once :=
    textTransform JSON_parse JSON_stringify Number_toString cfg_baseUrl src in
  textTransform JSON_parse JSON_stringify Number_toString cfg_baseUrl once
  = once.
Proof.
  cbv zeta.
  destruct (textTransform_cases cfg_baseUrl src) as [E|[r E]].
  - now rewrite !E.
  - rewrite E. apply textTransform_of_markup.
Qed.

(** X15. The block of an error is the same four tags whatever the
    message says: the message brings no angle bracket and no quote. *)
Theorem error_block_is_four_tags (message : string) :
  Str.count "<" (renderCanvasError message) = 4 /\
  Str.count ">" (renderCanvasError message) = 4 /\
  Str.count "034" (renderCanvasError message) = 4 /\
  Str.count "'" (renderCanvasError message) = 0.
Proof.
  unfold renderCanvasError. repeat split; count_markup; reflexivity.
Qed.

End MoreTransformer.

(** ** The label of a node *)

Lemma slice_end_append (p suffix : string) :
  Str.slice_end (p +:+ suffix) (String.length suffix) = p.
Proof.
  unfold Str.slice_end. rewrite length_append.
  replace (String.length p + String.length suffix - String.length suffix)
    with (String.length p) by lia.
  apply substring_append_l.
Qed.

Lemma split_cons (c : ascii) (s : string) :
  exists piece pieces, Str.split c s = piece :: pieces.
Proof.
  induction s as [|a s (piece & pieces & IH)]; cbn [Str.split]; [eauto|].
  destruct (Ascii.eqb a c); [eauto|]. rewrite IH. eauto.
Qed.

Lemma split_no_separator (c : ascii) (s : string) :
  Str.count c s = 0 -> Str.split c s = [s].
Proof.
  induction s as [|a s IH]; cbn [Str.split Str.count]; [reflexivity|].
  destruct (Ascii.eqb a c); [discriminate|]. cbn [Nat.add].
  intros H. now rewrite (IH H).
Qed.

Lemma split_append (c : ascii) (d n : string) :
  Str.split c (d +:+ String c n) = Str.split c d ++ Str.split c n.
Proof.
  induction d as [|a d IH]; push_append; cbn [Str.split].
  - now rewrite Ascii.eqb_refl.
  - destruct (Ascii.eqb a c); rewrite IH; [reflexivity|].
    destruct (split_cons c d) as (piece & pieces & ->). reflexivity.
Qed.

Lemma last_split (c : ascii) (base name : string) :
  Str.count c name = 0 ->
  base = name \/ (exists dir, base = dir +:+ String c name) ->
  List.last (Str.split c base) "" = name.
Proof.
  intros Hn [->|[dir ->]].
  - now rewrite split_no_separator.
  - rewrite split_append, (split_no_separator c name Hn).
    apply last_last.
Qed.

(** X16. The label of a file node with a path is the last segment of the
    path without a final [.md]; when that segment is empty, as for a path
    that ends in a slash, it is the whole path. So the label is never
    empty. *)
Theorem label_of_a_file_node (node : CanvasNode) (file : string) :
  node_type node = "file" ->
  node_file node = Some file ->
  file <> "" ->
  exists base,
    stripped ".md" file base /\
    (forall name,
       Str.count "/" name = 0 ->
       base = name \/ (exists dir, base = dir +:+ "/" +:+ name) ->
       getNodeLabel node = if String.eqb name "" then file else name) /\
    getNodeLabel node <> "".
Proof.
  intros Htype Hfile Hne. unfold getNodeLabel. rewrite Htype, Hfile.
  cbn [String.eqb Ascii.eqb Bool.eqb].
  destruct (String.eqb_spec file "") as [E|_]; [contradiction|].
  exists (if Str.endsWith file ".md" then Str.slice_end file 3 else file).
  split; [apply (stripped_cut ".md")|].
  set (base := if Str.endsWith file ".md" then Str.slice_end file 3 else file).
  split.
  - intros name Hname Hbase. now rewrite (last_split "/" base name Hname Hbase).
  - destruct (String.eqb_spec (List.last (Str.split "/" base) "") "");
      assumption.
Qed.

Lemma label_of_a_file_node_witness :
  exists base,
    stripped ".md" "Characters/Gandalf.md" base /\
    (forall name,
       Str.count "/" name = 0 ->
       base = name \/ (exists dir, base = dir +:+ "/" +:+ name) ->
       getNodeLabel gandalf
       = if String.eqb name "" then "Characters/Gandalf.md" else name) /\
    getNodeLabel gandalf <> "".
Proof.
  apply (label_of_a_file_node gandalf "Characters/Gandalf.md");
    [reflexivity | reflexivity | discriminate].
Defined.

Example label_of_gandalf : getNodeLabel gandalf = "Gandalf".
Proof. reflexivity. Qed.

(** ** Wrapped text *)

Lemma split_spaces_cons (text : string) :
  exists word words, Str.split_spaces text = word :: words.
Proof.
  unfold Str.split_spaces. generalize (String.length text) as fuel.
  generalize EmptyString as piece. intros piece fuel.
  destruct fuel as [|fuel]; cbn [Str.split_spaces_from]; [eauto|].
  destruct text as [|a s]; [eauto|].
  destruct (Str.strip_space (String a s)); [eauto|].
  revert piece a s. induction fuel as [|fuel IH]; intros piece a s;
    cbn [Str.split_spaces_from]; [eauto|].
  destruct s as [|b s]; [eauto|].
  destruct (Str.strip_space (String b s)); [eauto|]. apply IH.
Qed.

Section Wrapping.

Variable measure : string -> float.
Variable maxWidth : float.

Lemma wrap_words_concat (words : list string) (done : list (list string))
    (line : list string) :
  concat (wrap_words measure maxWidth words done line)
  = concat done ++ line ++ words.
Proof.
  revert done line. induction words as [|word rest IH]; intros done line;
    cbn [wrap_words].
  - rewrite concat_app. cbn [concat]. now rewrite !app_nil_r.
  - destruct (_ && _); rewrite IH.
    + rewrite concat_app. cbn [concat]. now rewrite app_nil_r, <- !app_assoc.
    + now rewrite <- app_assoc.
Qed.

Lemma wrap_words_Forall (P : list string -> Prop) (words : list string) :
  (forall line word, P line ->
     PrimFloat.ltb maxWidth (measure (Str.join " " (line ++ [word])))
     && (1 <? length (line ++ [word]))%nat = false ->
     P (line ++ [word])) ->
  (forall word, P [word]) ->
  forall done line,
    List.Forall P done -> P line ->
    List.Forall P (wrap_words measure maxWidth words done line).
Proof.
  intros Hpush Hword. induction words as [|word rest IH];
    intros done line Hdone Hline; cbn [wrap_words].
  - apply List.Forall_app. split; [exact Hdone|]. now constructor.
  - destruct (_ && _) eqn:E.
    + apply IH; [|apply Hword].
      apply List.Forall_app. split; [exact Hdone|]. now constructor.
    + apply IH; [exact Hdone|]. now apply Hpush.
Qed.

Lemma broken_when_full_push (lines : list (list string))
    (line : list string) (word : string) :
  line <> [] ->
  broken_when_full measure maxWidth (lines ++ [line]) ->
  broken_when_full measure maxWidth (lines ++ [line ++ [word]]).
Proof.
  intros Hne. induction lines as [|l lines IH]; [intros _; exact I|].
  destruct lines as [|l' lines].
  - cbn [app broken_when_full]. intros [H _]. split; [|exact I].
    destruct line as [|w line]; [contradiction | exact H].
  - cbn [app broken_when_full]. intros [H Hrest]. split; [exact H|].
    apply IH. exact Hrest.
Qed.

Lemma broken_when_full_break (lines : list (list string))
    (line : list string) (word : string) :
  PrimFloat.ltb maxWidth (measure (Str.join " " (line ++ [word]))) = true ->
  broken_when_full measure maxWidth (lines ++ [line]) ->
  broken_when_full measure maxWidth ((lines ++ [line]) ++ [[word]]).
Proof.
  intros Hfull. induction lines as [|l lines IH].
  - intros _. cbn [app broken_when_full]. auto.
  - destruct lines as [|l' lines].
    + cbn [app broken_when_full]. intros [H _]. auto.
    + cbn [app broken_when_full]. intros [H Hrest]. split; [exact H|].
      apply IH. exact Hrest.
Qed.

Lemma wrap_words_broken (words : list string) (done : list (list string))
    (line : list string) :
  line <> [] ->
  broken_when_full measure maxWidth (done ++ [line]) ->
  broken_when_full measure maxWidth
    (wrap_words measure maxWidth words done line).
Proof.
  revert done line. induction words as [|word rest IH]; intros done line Hne H;
    cbn [wrap_words]; [exact H|].
  destruct (_ && _) eqn:E.
  - apply andb_true_iff in E as [E _].
    apply IH; [discriminate|]. now apply broken_when_full_break.
  - apply IH; [now destruct line|]. now apply broken_when_full_push.
Qed.

Variable Number_toString : float -> string.

(** X17. [wrapText] keeps the words of the text, those between its runs
    of white space, in their order, and leaves at least one tspan. Each
    tspan has the words of one line with one space between them; no line
    is without a word; a line of two words or more is not longer than the
    width; and a line is broken only where its text with the next word
    would be longer than the width. *)
Theorem wrapText_lines (text : string) :
  exists lines,
    map tspan_text (wrapText Number_toString measure text maxWidth)
    = map (Str.join " ") lines /\
    concat lines = Str.split_spaces text /\
    lines <> [] /\
    List.Forall (fun line => line <> []) lines /\
    List.Forall (fits measure maxWidth) lines /\
    broken_when_full measure maxWidth lines.
Proof.
  unfold wrapText.
  destruct (split_spaces_cons text) as (word & words & ->).
  exists (wrap_words measure maxWidth (word :: words) [] []).
  assert (Hne : wrap_words measure maxWidth (word :: words) [] [] <> []).
  { intros E. pose proof (wrap_words_concat (word :: words) [] []) as H.
    rewrite E in H. discriminate H. }
  split.
  { destruct (wrap_words measure maxWidth (word :: words) [] [])
      as [|first others]; [contradiction|].
    cbn [map tspan_text]. f_equal. rewrite map_map. reflexivity. }
  split; [apply wrap_words_concat|]. split; [exact Hne|].
  split; [|split].
  - cbn [wrap_words app length Nat.ltb Nat.leb]. rewrite andb_false_r.
    apply (wrap_words_Forall (fun line => line <> [])).
    + intros line w _ _. now destruct line.
    + discriminate.
    + constructor.
    + discriminate.
  - apply (wrap_words_Forall (fits measure maxWidth)).
    + intros line w _ E. apply andb_false_iff in E as [E|E].
      * now right.
      * left. apply Nat.ltb_ge in E. exact E.
    + intros w. left. cbn. lia.
    + constructor.
    + left. cbn. lia.
  - cbn [wrap_words app length Nat.ltb Nat.leb]. rewrite andb_false_r.
    apply wrap_words_broken; [discriminate | exact I].
Qed.

End Wrapping.

(** ** The node map and the lines of the edges *)

Lemma nodeMap_snoc (ns : list CanvasNode) (node : CanvasNode) :
  nodeMap (ns ++ [node]) = <[node_id node := node]> (nodeMap ns).
Proof. unfold nodeMap. now rewrite foldl_app. Qed.

Lemma nodeMap_lookup (ns : list CanvasNode) (k : string) :
  nodeMap ns !! k
  = List.find (fun node => String.eqb (node_id node) k) (rev ns).
Proof.
  induction ns as [|node ns IH] using rev_ind; [reflexivity|].
  rewrite nodeMap_snoc, rev_app_distr. cbn [rev app List.find].
  destruct (String.eqb_spec (node_id node) k) as [->|Hne].
  - apply lookup_insert_eq.
  - rewrite lookup_insert_ne by exact Hne. exact IH.
Qed.

Lemma nodeMap_In (ns : list CanvasNode) (k : string) :
  In k (map node_id ns) ->
  exists node, nodeMap ns !! k = Some node /\ In node ns /\ node_id node = k.
Proof.
  intros Hk. rewrite nodeMap_lookup.
  apply in_map_iff in Hk as (node & Hid & Hk).
  destruct (List.find (fun n => String.eqb (node_id n) k) (rev ns))
    as [found|] eqn:E.
  - exists found. apply find_some in E as [Hfound He].
    apply String.eqb_eq in He. rewrite <- in_rev in Hfound. auto.
  - rewrite in_rev in Hk. apply (find_none _ _ E node) in Hk.
    rewrite Hid, String.eqb_refl in Hk. discriminate Hk.
Qed.

(** X18. The node map has a node for an id exactly when a node of the
    document has that id, and of two nodes with the same id it has the
    later one: the node it gives is the last of the list with the id. *)
Theorem nodeMap_has_the_last_node (ns : list CanvasNode) (k : string) :
  nodeMap ns !! k
  = List.find (fun node => String.eqb (node_id node) k) (rev ns) /\
  (In k (map node_id ns) <->
   exists node, nodeMap ns !! k = Some node /\ In node ns /\ node_id node = k).
Proof.
  split; [apply nodeMap_lookup|]. split.
  - apply nodeMap_In.
  - intros (node & _ & Hin & Hid). apply in_map_iff. eauto.
Qed.

Section Lines.

Variable JSON_parse : string -> option json.

(** X19. The interactive renderer draws every edge of a parsed document:
    both ends of the edge are in the node map, so the loop over the edges
    never passes one over, and the line runs between the anchors of two
    nodes of the document that have the ids of the ends. *)
Theorem parsed_edges_have_their_line (raw : string) (data : CanvasData)
    (warnings : list CanvasParseWarning) (edge : CanvasEdge) :
  parseCanvasData JSON_parse raw = ParseSuccess data warnings ->
  In edge (edges data) ->
  exists fromNode toNode,
    In fromNode (nodes data) /\ node_id fromNode = edge_fromNode edge /\
    In toNode (nodes data) /\ node_id toNode = edge_toNode edge /\
    edge_line (nodeMap (nodes data)) edge
    = Some (getNodeAnchor fromNode (edge_fromSide edge),
            getNodeAnchor toNode (edge_toSide edge)).
Proof.
  intros H Hin. apply parseCanvasData_success in H as (parsed & Hparse & H).
  apply validate_canvas_success in H
    as (rawNodes & rawEdges & ns & es & _ & _ & _ & _ & _ & -> & _).
  cbn [nodes edges] in *. apply filter_In in Hin as [_ Hc].
  apply andb_true_iff in Hc as [Hf Ht].
  apply node_ids_In in Hf, Ht.
  pose proof (nodeMap_In ns) as Hget.
  destruct (Hget _ Hf) as (fromNode & Hfrom & Hfin & Hfid).
  destruct (Hget _ Ht) as (toNode & Hto & Htin & Htid).
  exists fromNode, toNode. unfold edge_line. rewrite Hfrom, Hto. auto 6.
Qed.

End Lines.

Lemma parsed_edges_have_their_line_witness :
  exists data warnings edge,
    parseCanvasData ES.JSON_parse canvas_with_ghosts
    = ParseSuccess data warnings /\
    In edge (edges data) /\
    exists fromNode toNode,
      In fromNode (nodes data) /\ node_id fromNode = edge_fromNode edge /\
      In toNode (nodes data) /\ node_id toNode = edge_toNode edge /\
      edge_line (nodeMap (nodes data)) edge
      = Some (getNodeAnchor fromNode (edge_fromSide edge),
              getNodeAnchor toNode (edge_toSide edge)).
Proof.
  eexists _, _, _. split; [vm_compute; reflexivity|].
  split; [left; reflexivity|].
  refine (parsed_edges_have_their_line ES.JSON_parse canvas_with_ghosts
            _ _ _ _ _); [vm_compute; reflexivity | left; reflexivity].
Defined.


(** ** Arrowheads *)

(** A finite number less itself is zero, the positive one. *)
Lemma sub_diag_finite (x : float) :
  PrimFloat.is_finite x = true -> (x - x)%float = 0%float.
Proof.
  intros H. rewrite <- (SF2Prim_Prim2SF (x - x)), sub_spec.
  unfold PrimFloat.is_finite, PrimFloat.is_nan, PrimFloat.is_infinity in H.
  rewrite !FloatAxioms.eqb_spec, abs_spec in H.
  destruct (Prim2SF x) as [s|s| |s m e].
  - destruct s; reflexivity.
  - destruct s; discriminate H.
  - discriminate H.
  - unfold SF64sub, SFsub. cbv zeta. rewrite Z.sub_diag. reflexivity.
Qed.

(** X21. An edge whose two anchors are the same point, with finite
    coordinates, has no arrowhead: [arrowheadPoints] gives the empty list
    of points, whatever the size, and divides by no zero. *)
Theorem arrowhead_of_an_edge_without_length
    (Number_toString : float -> string) (from to : Point) (size : float) :
  point_x from = point_x to ->
  point_y from = point_y to ->
  PrimFloat.is_finite (point_x to) = true ->
  PrimFloat.is_finite (point_y to) = true ->
  arrowheadPoints Number_toString from to size = "".
Proof.
  intros Hx Hy Hfx Hfy. unfold arrowheadPoints. rewrite Hx, Hy.
  rewrite (sub_diag_finite _ Hfx), (sub_diag_finite _ Hfy). reflexivity.
Qed.

Lemma arrowhead_of_an_edge_without_length_witness :
  arrowheadPoints ES.Number_toString
    {| point_x := 10; point_y := 20 |} {| point_x := 10; point_y := 20 |} 8
  = "".
Proof.
  apply arrowhead_of_an_edge_without_length; reflexivity.
Defined.

(** An arrowhead along the x axis; and two anchors at infinity, which
    are the same point and have an arrowhead all the same. *)
Example arrowhead_to_the_right :
  arrowheadPoints ES.Number_toString
    {| point_x := 0; point_y := 0 |} {| point_x := 10; point_y := 0 |} 8
  = "10,0 2,4 2,-4".
Proof. vm_compute. reflexivity. Qed.

Example arrowhead_at_infinity :
  arrowheadPoints ES.Number_toString
    {| point_x := infinity; point_y := 0 |}
    {| point_x := infinity; point_y := 0 |} 8
  = "Infinity,0 NaN,NaN NaN,NaN".
Proof. vm_compute. reflexivity. Qed.
